(** * create-roadmap-issues.py: a shallow embedding

    The script resolves a GitHub token, makes sure the [feature] label exists
    and posts one issue per entry of a static list.  Everything it does is a
    sequence of effects (standard output, standard input, HTTP requests,
    exceptions, [sys.exit]); the embedding threads them through a small
    state-and-exception monad and keeps the external world (argument vector,
    environment, server) as data the functions read. *)

From Stdlib Require Import String Ascii.
From stdpp Require Import base numbers list option gmap.

Local Open Scope Z_scope.
Set Warnings "-register-all".

(** ** Python strings and bytes *)

Module Py.

(** A Python [str] is a sequence of Unicode code points; [bytes] is a sequence
    of octets.  Both are lists of numbers here. *)
Abbreviation str := (list Z).
Abbreviation bytes := (list Z).

(** [str.isspace] on one code point: the characters Python treats as
    whitespace (bidirectional class WS, B or S, or category Zs). *)
Definition isspace (c : Z) : bool :=
  bool_decide (9 ≤ c ≤ 13) || bool_decide (28 ≤ c ≤ 32)
  || bool_decide (c = 133) || bool_decide (c = 160)
  || bool_decide (c = 5760) || bool_decide (8192 ≤ c ≤ 8202)
  || bool_decide (c = 8232) || bool_decide (c = 8233)
  || bool_decide (c = 8239) || bool_decide (c = 8287)
  || bool_decide (c = 12288).

(** [s.lstrip()], [s.rstrip()] and [s.strip()] with no argument. *)
Fixpoint lstrip (s : str) : str :=
  match s with
  | c :: s' => if isspace c then lstrip s' else s
  | [] => []
  end.

Definition rstrip (s : str) : str := reverse (lstrip (reverse s)).

Definition strip (s : str) : str := rstrip (lstrip s).

(** [b.decode('utf-8')], strict: [None] stands for [UnicodeDecodeError].
    Overlong forms, surrogates and values above U+10FFFF are rejected. *)
Definition cont (b : Z) : bool := bool_decide (128 ≤ b ≤ 191).

Fixpoint utf8_decode (b : bytes) : option str :=
  match b with
  | [] => Some []
  | b0 :: r0 =>
    if bool_decide (0 ≤ b0 ≤ 127) then cons b0 <$> utf8_decode r0
    else match r0 with
    | [] => None
    | b1 :: r1 =>
      if bool_decide (194 ≤ b0 ≤ 223) then
        if cont b1
        then cons ((b0 - 192) * 64 + (b1 - 128)) <$> utf8_decode r1
        else None
      else match r1 with
      | [] => None
      | b2 :: r2 =>
        if bool_decide (224 ≤ b0 ≤ 239) then
          if cont b1 && cont b2
             && (bool_decide (b0 ≠ 224) || bool_decide (160 ≤ b1))
             && (bool_decide (b0 ≠ 237) || bool_decide (b1 ≤ 159))
          then cons ((b0 - 224) * 4096 + (b1 - 128) * 64 + (b2 - 128))
                 <$> utf8_decode r2
          else None
        else match r2 with
        | [] => None
        | b3 :: r3 =>
          if bool_decide (240 ≤ b0 ≤ 244) then
            if cont b1 && cont b2 && cont b3
               && (bool_decide (b0 ≠ 240) || bool_decide (144 ≤ b1))
               && (bool_decide (b0 ≠ 244) || bool_decide (b1 ≤ 143))
            then cons ((b0 - 240) * 262144 + (b1 - 128) * 4096
                       + (b2 - 128) * 64 + (b3 - 128))
                   <$> utf8_decode r3
            else None
          else None
        end
      end
    end
  end.

(** [s.encode('utf-8')]: [None] stands for [UnicodeEncodeError] (a lone
    surrogate; a code point outside the Unicode range cannot occur in a
    Python [str]). *)
Definition utf8_encode_char (c : Z) : option bytes :=
  if bool_decide (0 ≤ c < 128) then Some [c]
  else if bool_decide (128 ≤ c < 2048) then
    Some [192 + c / 64; 128 + c mod 64]
  else if bool_decide (2048 ≤ c < 55296 ∨ 57344 ≤ c < 65536) then
    Some [224 + c / 4096; 128 + (c / 64) mod 64; 128 + c mod 64]
  else if bool_decide (65536 ≤ c < 1114112) then
    Some [240 + c / 262144; 128 + (c / 4096) mod 64;
          128 + (c / 64) mod 64; 128 + c mod 64]
  else None.

Fixpoint utf8_encode (s : str) : option bytes :=
  match s with
  | [] => Some []
  | c :: s' =>
    match utf8_encode_char c, utf8_encode s' with
    | Some b, Some bs => Some (b ++ bs)
    | _, _ => None
    end
  end.

(** String literals of the source.  The literal is written here as it stands
    in the Python file; its octets (this file is UTF-8, like the script) are
    decoded to code points. *)
Definition octets (s : string) : bytes :=
  (fun a => Z.of_nat (nat_of_ascii a)) <$> list_ascii_of_string s.

Definition lit (s : string) : str := default [] (utf8_decode (octets s)).

(** The double quote, which a literal of this file cannot contain. *)
Definition dquote : str := [34].

(** [str(n)] for an [int]: decimal digits, with a sign when negative. *)
Fixpoint digits (fuel : nat) (n : Z) (acc : str) : str :=
  match fuel with
  | O => acc
  | S fuel' =>
    let acc' := (48 + n mod 10) :: acc in
    if bool_decide (n < 10) then acc' else digits fuel' (n / 10) acc'
  end.

Definition str_of_int (n : Z) : str :=
  if bool_decide (n < 0) then 45 :: digits (Z.to_nat (- n)) (- n) []
  else digits (S (Z.to_nat n)) n [].

(** [s * n]: repetition. *)
Definition repeat_str (s : str) (n : nat) : str := mjoin (replicate n s).

End Py.
Import Py.

(** ** Python values and [json.dumps] *)

(** The objects [json.loads] builds and [json.dumps] accepts.  A [float] is
    kept as its [repr]; a [dict] keeps its entries in insertion order. *)
Inductive pyval :=
  | PNone
  | PBool (b : bool)
  | PInt (n : Z)
  | PFloat (repr : str)
  | PStr (s : str)
  | PList (items : list pyval)
  | PDict (entries : list (str * pyval)).

Module Json.

Definition hexdigit (n : Z) : Z := if bool_decide (n < 10) then 48 + n else 87 + n.

(** ['\\u{0:04x}'.format(n)] *)
Definition u_escape (n : Z) : str :=
  [92; 117; hexdigit (n / 4096 mod 16); hexdigit (n / 256 mod 16);
   hexdigit (n / 16 mod 16); hexdigit (n mod 16)].

(** One character of [py_encode_basestring_ascii]: the printable ASCII
    characters stand for themselves, except the quote and the backslash. *)
Definition escape_char (c : Z) : str :=
  if bool_decide (c = 34) then [92; 34]
  else if bool_decide (c = 92) then [92; 92]
  else if bool_decide (c = 10) then [92; 110]
  else if bool_decide (c = 13) then [92; 114]
  else if bool_decide (c = 9) then [92; 116]
  else if bool_decide (c = 8) then [92; 98]
  else if bool_decide (c = 12) then [92; 102]
  else if bool_decide (32 ≤ c ≤ 126) then [c]
  else if bool_decide (c < 65536) then u_escape c
  else u_escape (Z.lor 55296 (Z.land (Z.shiftr (c - 65536) 10) 1023))
       ++ u_escape (Z.lor 56320 (Z.land (c - 65536) 1023)).

Definition encode_string (s : str) : str :=
  dquote ++ mjoin (escape_char <$> s) ++ dquote.

(** [sep.join(parts)] *)
Fixpoint join (sep : str) (parts : list str) : str :=
  match parts with
  | [] => []
  | [p] => p
  | p :: ps => p ++ sep ++ join sep ps
  end.

Definition floatstr (repr : str) : str :=
  if bool_decide (repr = lit "nan") then lit "NaN"
  else if bool_decide (repr = lit "inf") then lit "Infinity"
  else if bool_decide (repr = lit "-inf") then lit "-Infinity"
  else repr.

(** [json.dumps(v)] with its default arguments: [ensure_ascii=True],
    separators [', '] and [': ']. *)
Fixpoint dumps (v : pyval) : str :=
  match v with
  | PNone => lit "null"
  | PBool true => lit "true"
  | PBool false => lit "false"
  | PInt n => str_of_int n
  | PFloat r => floatstr r
  | PStr s => encode_string s
  | PList items => lit "[" ++ join (lit ", ") (map dumps items) ++ lit "]"
  | PDict entries =>
    lit "{"
    ++ join (lit ", ")
         (map (fun kv => encode_string (fst kv) ++ lit ": " ++ dumps (snd kv)) entries)
    ++ lit "}"
  end.

End Json.

(** [d[key]] on a [dict] held as its entries. *)
Fixpoint dict_get (entries : list (str * pyval)) (key : str) : option pyval :=
  match entries with
  | [] => None
  | (k, v) :: rest => if bool_decide (k = key) then Some v else dict_get rest key
  end.

(** ** Exceptions, requests and the effect monad *)

(** The body of an HTTP message as [read()] meets it: the octets, or a
    connection that breaks while they are read. *)
Inductive stream :=
  | Stream (content : bytes)
  | Broken (reason : str).

(** The exceptions that can be raised, all subclasses of [Exception].
    [URLError] stands for every exception of [urlopen] and [read] that is not
    an [HTTPError]: [urllib.error.URLError], [OSError] and the like.
    [SystemExit] is no [Exception] and is kept apart, in [result]. *)
Inductive exn :=
  | HTTPError (code : Z) (msg : str) (fp : stream)
  | URLError (reason : str)
  | UnicodeDecodeError
  | UnicodeEncodeError
  | JSONDecodeError
  | KeyError (key : str)
  | TypeError
  | IndexError
  | EOFError.

(** The arguments of [urllib.request.Request(url, data=, headers=, method=)]. *)
Record request := Request {
  full_url : str;
  data : option bytes;
  headers : gmap str str;
  method : str
}.

(** How a call of [urlopen] ends, as the script meets it: with the HTTP
    response the exchange ends on (its status, reason and body), or with no
    HTTP response at all.  A redirect that urllib follows by itself is not
    an end: the answer is then the response of the last hop, and a 3xx
    status stands here only for a redirect urllib gives up on.  [NoAnswer]
    covers a transport failure as well as a request that urllib or
    http.client refuses to send (a header value they do not accept). *)
Inductive answer :=
  | Answer (status : Z) (reason : str) (fp : stream)
  | NoAnswer (reason : str).

(** The object [urlopen] returns. *)
Record response := Response { status : Z; resp_fp : stream }.

(** A piece of a printed line: text, or the [str()] of an exception or of a
    value, which is left unrendered. *)
Inductive frag :=
  | Txt (s : str)
  | StrExn (e : exn)
  | StrVal (v : pyval).

(** The part of the world the script changes: the lines still to be read
    from standard input, what was written to standard output (one entry per
    [print] or prompt) and the requests the script has passed to [urlopen],
    oldest first (one entry per call: the hops of a redirect urllib follows
    inside a call are not listed). *)
Record state := State {
  stdin : list str;
  stdout : list (list frag);
  requests : list request
}.

Inductive result (A : Type) :=
  | Return (a : A)
  | Raise (e : exn)
  | SystemExit (code : Z).
Arguments Return {A} a.
Arguments Raise {A} e.
Arguments SystemExit {A} code.

Definition M (A : Type) : Type := state → result A * state.

#[global] Instance M_ret : MRet M := λ A a s, (Return a, s).

#[global] Instance M_bind : MBind M := λ A B f m s,
  match m s with
  | (Return a, s') => f a s'
  | (Raise e, s') => (Raise e, s')
  | (SystemExit c, s') => (SystemExit c, s')
  end.

Definition raise {A} (e : exn) : M A := λ s, (Raise e, s).

(** [sys.exit(code)] *)
Definition sys_exit {A} (code : Z) : M A := λ s, (SystemExit code, s).

(** [try: body  except ...: ...]. [handlers e] is the first clause that
    matches [e], or [None] when no clause does and [e] goes on.  An exception
    raised by a handler is not caught by the clauses beside it. *)
Definition try_except {A} (body : M A) (handlers : exn → option (M A)) : M A := λ s,
  match body s with
  | (Raise e, s') =>
    match handlers e with
    | Some handler => handler s'
    | None => (Raise e, s')
    end
  | r => r
  end.

Definition nl : str := [10].

(** Writing to standard output.  Standard output is taken to accept every
    line: the model has no terminal that cannot encode the signs the script
    prints, and no text that cannot be encoded (a lone surrogate in a value
    the server sent), for which the real [print] raises
    [UnicodeEncodeError]. *)
Definition write (line : list frag) : M unit := λ s,
  (Return (), State (stdin s) (stdout s ++ [line]) (requests s)).

(** [print(...)] and [print(..., end=e)] *)
Definition print (line : list frag) : M unit := write (line ++ [Txt nl]).
Definition print_end (line : list frag) (e : str) : M unit := write (line ++ [Txt e]).

(** [input(prompt)]: the prompt is written, then a line is read. *)
Definition readline : M str := λ s,
  match stdin s with
  | [] => (Raise EOFError, s)
  | line :: rest => (Return line, State rest (stdout s) (requests s))
  end.

Definition input (prompt : str) : M str := write [Txt prompt] ;; readline.

(** [fp.read()] *)
Definition read (fp : stream) : M bytes :=
  match fp with
  | Stream content => mret content
  | Broken reason => raise (URLError reason)
  end.

(** [b.decode('utf-8')] and [s.encode('utf-8')] *)
Definition decode (b : bytes) : M str :=
  match utf8_decode b with
  | Some s => mret s
  | None => raise UnicodeDecodeError
  end.

Definition encode (s : str) : M bytes :=
  match utf8_encode s with
  | Some b => mret b
  | None => raise UnicodeEncodeError
  end.

(** [v[key]] for a string [key]: only a [dict] that holds the key answers. *)
Definition subscript (v : pyval) (key : str) : M pyval :=
  match v with
  | PDict entries =>
    match dict_get entries key with
    | Some x => mret x
    | None => raise (KeyError key)
    end
  | _ => raise TypeError
  end.

(** The status the process ends with. *)
Definition exit_status {A} (r : result A) : Z :=
  match r with
  | Return _ => 0
  | SystemExit code => code
  | Raise _ => 1
  end.

(** ** The static data of the script *)

Definition REPO_OWNER : str := lit "eddiemoore".
Definition REPO_NAME : str := lit "StructureCreator".

(** An entry of [ISSUES]: a dict with the two keys [title] and [body]. *)
Record issue := Issue { title : str; body : str }.

(** All issues to create, in the order of the source. *)
Definition ISSUES : list issue := [
  {| title := lit "Visual Schema Editor";
     body := lit "## Description
Implement a drag-and-drop tree editor to build folder structures visually instead of writing XML manually.

## Features
- Drag-and-drop interface to build folder structures
- Add/remove/rename nodes without writing XML
- Right-click context menus for common actions
- Double-click to edit names inline
- Visual indicators for files vs folders
- Undo/redo for tree modifications

## Benefits
- Greatly improves usability for non-technical users
- Reduces errors from manual XML editing
- Speeds up template creation workflow

## Category
High-Priority Feature

## Related
See ROADMAP.md for additional context" |};
  {| title := lit "CLI Interface";
     body := lit "## Description
Create a command-line interface for Structure Creator to enable automation and CI/CD integration.

## Features
```bash
# Create from template
structure-creator create --template " ++ dquote ++ lit "React App" ++ dquote ++ lit " --output ./my-app --var NAME=MyProject

# Create from XML file
structure-creator create --schema ./schema.xml --output ./project

# List templates
structure-creator templates list

# Export template
structure-creator templates export " ++ dquote ++ lit "React App" ++ dquote ++ lit " --output ./react-app.sct

# Dry run
structure-creator create --template " ++ dquote ++ lit "React App" ++ dquote ++ lit " --output ./my-app --dry-run
```

## Benefits
- Enables automation and scripting
- CI/CD pipeline integration
- Batch operations support
- Headless server usage

## Category
High-Priority Feature

## Related
See ROADMAP.md for additional context" |};
  {| title := lit "Conditional Logic in Schemas";
     body := lit "## Description
Add if/else syntax to schemas for creating reusable templates that adapt based on variable values.

## Example
```xml
<folder name=" ++ dquote ++ lit "src" ++ dquote ++ lit ">
  <if var=" ++ dquote ++ lit "USE_TYPESCRIPT" ++ dquote ++ lit ">
    <file name=" ++ dquote ++ lit "index.ts" ++ dquote ++ lit " />
  </if>
  <else>
    <file name=" ++ dquote ++ lit "index.js" ++ dquote ++ lit " />
  </else>
</folder>
```

## Benefits
- More flexible and reusable templates
- Single template can handle multiple configurations
- Reduces template duplication

## Category
High-Priority Feature

## Related
See ROADMAP.md for additional context" |};
  {| title := lit "Template Import/Export";
     body := lit "## Description
Enable sharing templates as portable files, providing the foundation for a future template hub.

## Features
- Export templates as .sct files (structured JSON bundle)
- Import from local files
- Import from URLs
- Bulk import/export
- Include/exclude variables option

## Benefits
- Easy template sharing between users and teams
- Backup and restore templates
- Foundation for community template hub
- Version control for templates

## Category
High-Priority Feature

## Related
See ROADMAP.md for additional context" |};
  {| title := lit "Post-Creation Hooks";
     body := lit "## Description
Allow running commands automatically after structure creation (e.g., npm install, git init, code .).

## Example
```xml
<schema>
  <folder name=" ++ dquote ++ lit "my-project" ++ dquote ++ lit ">...</folder>
  <hooks>
    <post-create>npm install</post-create>
    <post-create>git init</post-create>
    <post-create>code .</post-create>
  </hooks>
</schema>
```

## Benefits
- Automates common setup tasks
- Reduces manual steps after creation
- Improves workflow efficiency
- Consistent project initialization

## Category
High-Priority Feature

## Related
See ROADMAP.md for additional context" |};
  {| title := lit "Repeater/Loop Syntax";
     body := lit "## Description
Add loop/repeat functionality to generate multiple similar structures dynamically.

## Example
```xml
<repeat count=" ++ dquote ++ lit "%NUM_MODULES%" ++ dquote ++ lit " as=" ++ dquote ++ lit "i" ++ dquote ++ lit ">
  <folder name=" ++ dquote ++ lit "module_%i%" ++ dquote ++ lit ">
    <file name=" ++ dquote ++ lit "index.ts" ++ dquote ++ lit " />
  </folder>
</repeat>
```

## Benefits
- Generate multiple similar structures efficiently
- Dynamic structure creation based on variables
- Reduces repetitive XML writing

## Category
Schema Enhancement

## Related
See ROADMAP.md for additional context" |};
  {| title := lit "Variable Types & Transformations";
     body := lit "## Description
Add support for variable transformations, types, and validation.

## Features
- Case transformations: `%NAME:uppercase%`, `%NAME:kebab-case%`, `%NAME:camelCase%`
- Date formatting: `%DATE:format(YYYY-MM-DD)%`
- Computed values: `%NAME:plural%`, `%NAME:length%`
- Validation rules: regex patterns, min/max length, required fields

## Benefits
- More powerful variable system
- Automatic name formatting
- Input validation
- Reduces manual text manipulation

## Category
Schema Enhancement

## Related
See ROADMAP.md for additional context" |};
  {| title := lit "Template Inheritance";
     body := lit "## Description
Allow templates to extend other templates for better code reuse and modularity.

## Example
```xml
<template extends=" ++ dquote ++ lit "base-react-app" ++ dquote ++ lit ">
  <folder name=" ++ dquote ++ lit "additional-feature" ++ dquote ++ lit ">
    <file name=" ++ dquote ++ lit "feature.ts" ++ dquote ++ lit " />
  </folder>
</template>
```

## Benefits
- Better template organization
- Reduced duplication
- Easier maintenance
- Modular template design

## Category
Schema Enhancement

## Related
See ROADMAP.md for additional context" |};
  {| title := lit "File Content Templates";
     body := lit "## Description
Implement a full templating engine for file contents with conditional logic and loops.

## Example
```xml
<file name=" ++ dquote ++ lit "README.md" ++ dquote ++ lit "><![CDATA[
# %PROJECT_NAME%

Created on %DATE%

## Installation

{{if USE_NPM}}
npm install
{{else}}
yarn install
{{endif}}

## Features
{{for feature in FEATURES}}
- {{feature}}
{{endfor}}
]]></file>
```

## Benefits
- Dynamic file content generation
- Complex template logic in files
- Reduces need for post-processing
- More powerful file generation

## Category
Schema Enhancement

## Related
See ROADMAP.md for additional context" |};
  {| title := lit "Diff Preview for Dry Run";
     body := lit "## Description
Enhance dry run mode with visual comparison of planned changes vs existing files.

## Features
- Visual comparison of planned vs existing files
- Color coding: green (new), red (overwrite), yellow (skip)
- Expandable tree view showing all changes
- Summary statistics at top

## Benefits
- Better understanding of what will change
- Prevents accidental overwrites
- More confidence before execution
- Clear visualization of impact

## Category
User Experience

## Related
See ROADMAP.md for additional context" |};
  {| title := lit "Template Search & Tags";
     body := lit "## Description
Add comprehensive template search and tagging system.

## Features
- Full-text search across template names and descriptions
- Tagging system (e.g., " ++ dquote ++ lit "react" ++ dquote ++ lit ", " ++ dquote ++ lit "python" ++ dquote ++ lit ", " ++ dquote ++ lit "monorepo" ++ dquote ++ lit ", " ++ dquote ++ lit "backend" ++ dquote ++ lit ")
- Filter templates by tags
- Sort by name, date, usage, favorites

## Benefits
- Easy template discovery
- Better organization
- Quick finding of relevant templates
- Improved template management

## Category
User Experience

## Related
See ROADMAP.md for additional context" |};
  {| title := lit "Recent Projects History";
     body := lit "## Description
Track recently created structures for quick re-creation with modifications.

## Features
- Track last N created structures
- Quick re-create with same settings
- Edit variables and re-run
- Clear history option

## Benefits
- Faster iteration on templates
- Easy recreation of similar projects
- Improves workflow efficiency
- Reduces repetitive data entry

## Category
User Experience

## Related
See ROADMAP.md for additional context" |};
  {| title := lit "Keyboard Shortcuts";
     body := lit "## Description
Add comprehensive keyboard shortcuts for common operations.

## Shortcuts
- `Cmd/Ctrl + Enter` - Create structure
- `Cmd/Ctrl + N` - New template
- `Cmd/Ctrl + O` - Open folder/file
- `Cmd/Ctrl + S` - Save current as template
- `Cmd/Ctrl + F` - Focus search
- `Escape` - Cancel/close modals
- Arrow keys - Navigate template list

## Benefits
- Faster workflow for power users
- Reduced mouse usage
- More efficient navigation
- Better accessibility

## Category
User Experience

## Related
See ROADMAP.md for additional context" |};
  {| title := lit "Template Previews";
     body := lit "## Description
Add visual previews of templates before use.

## Features
- Thumbnail/icon preview of template structure
- Quick-view popup on hover
- Full preview modal
- Generated file count and stats

## Benefits
- Better understanding of templates before use
- Visual template browsing
- Faster template selection
- Improved user experience

## Category
User Experience

## Related
See ROADMAP.md for additional context" |};
  {| title := lit "Watch Mode";
     body := lit "## Description
Monitor schema files for changes and auto-recreate structures on save.

## Features
- Monitor schema file for changes
- Auto-recreate structure on save
- Useful for iterating on project templates
- Configurable debounce delay

## Benefits
- Faster template development iteration
- Real-time preview of changes
- Improved development workflow
- Reduced manual re-execution

## Category
Workflow & Automation

## Related
See ROADMAP.md for additional context" |};
  {| title := lit "Batch Operations";
     body := lit "## Description
Enable batch creation operations for multiple structures or locations.

## Features
- Create same structure in multiple locations
- Apply multiple templates sequentially
- Variable sets for different configurations
- Progress tracking for batch jobs

## Benefits
- Bulk project setup
- Consistent structure across multiple locations
- Time savings for large operations
- Better support for monorepos

## Category
Workflow & Automation

## Related
See ROADMAP.md for additional context" |};
  {| title := lit "Template Wizards";
     body := lit "## Description
Step-by-step guided template creation and configuration.

## Workflow
1. Choose base template type
2. Answer configuration questions
3. Preview generated schema
4. Customize if needed
5. Create structure

## Benefits
- Easier for new users
- Guided template selection
- Reduces errors
- Better onboarding experience

## Category
Workflow & Automation

## Related
See ROADMAP.md for additional context" |};
  {| title := lit "Schema Validation";
     body := lit "## Description
Comprehensive validation of schemas before execution.

## Features
- Validate XML syntax before creation
- Check for undefined variable references
- Warn about duplicate names
- Detect circular template inheritance
- Validate URLs before download attempts

## Benefits
- Catch errors early
- Better error messages
- Prevents failed executions
- Improved reliability

## Category
Workflow & Automation

## Related
See ROADMAP.md for additional context" |};
  {| title := lit "Debug Mode";
     body := lit "## Description
Add comprehensive debugging capabilities for troubleshooting.

## Features
- Verbose logging of all operations
- Step-by-step execution with pauses
- Variable substitution visualization
- Performance timing for each operation

## Benefits
- Easier troubleshooting
- Better understanding of execution
- Performance analysis
- Development debugging

## Category
Workflow & Automation

## Related
See ROADMAP.md for additional context" |};
  {| title := lit "Template Hub / Registry";
     body := lit "## Description
Create a community hub for browsing and sharing templates.

## Features
- Browse community-created templates
- Publish templates publicly
- Version tracking and changelogs
- Ratings and reviews
- Download counts
- Categories and tags

## Benefits
- Community template ecosystem
- Easy template discovery
- Shared knowledge base
- Reduced duplicate work

## Category
Collaboration & Sharing

## Related
See ROADMAP.md for additional context
**Requires**: Template Import/Export feature" |};
  {| title := lit "Team Template Libraries";
     body := lit "## Description
Enable teams to share and manage templates collectively.

## Features
- Shared template storage (local network or cloud)
- Organization-level template management
- Role-based access controls
- Sync across team members
- Audit logging

## Benefits
- Team standardization
- Centralized template management
- Better collaboration
- Consistent project structures

## Category
Collaboration & Sharing

## Related
See ROADMAP.md for additional context" |};
  {| title := lit "Git Integration for Templates";
     body := lit "## Description
Store and version templates in Git repositories.

## Features
- Store templates in Git repository
- Version history for templates
- Branch-based template variants
- Pull updates from remote

## Benefits
- Version control for templates
- Easy collaboration through Git
- Backup and history
- Standard Git workflows

## Category
Collaboration & Sharing

## Related
See ROADMAP.md for additional context" |};
  {| title := lit "GitHub/GitLab Integration";
     body := lit "## Description
Deep integration with GitHub and GitLab platforms.

## Features
- Create repository + structure in one action
- Use GitHub repo as template source
- Sync templates with GitHub Gists
- GitHub Actions integration

## Benefits
- Streamlined repository creation
- Template hosting on GitHub
- Automated workflows
- Better developer experience

## Category
Collaboration & Sharing

## Related
See ROADMAP.md for additional context" |};
  {| title := lit "Smart File Detection";
     body := lit "## Description
Analyze folder structures to suggest template types and relevant variables.

## Features
- Analyze folder structure to suggest template type
- Detect frameworks (React, Vue, Django, etc.)
- Suggest relevant variables
- Auto-populate common patterns

## Benefits
- Intelligent template suggestions
- Faster template creation
- Framework-aware recommendations
- Reduced manual configuration

## Category
Advanced File Operations

## Related
See ROADMAP.md for additional context" |};
  {| title := lit "Binary File Generation";
     body := lit "## Description
Generate various types of binary and data files.

## Features
- Generate placeholder images with custom dimensions/colors
- Create empty SQLite databases with defined schema
- Generate sample data files (JSON, CSV)
- Create stub binary files for testing

## Benefits
- Complete project scaffolding
- Test data generation
- Placeholder assets
- Full project setup automation

## Category
Advanced File Operations

## Related
See ROADMAP.md for additional context" |};
  {| title := lit "Structure Comparison";
     body := lit "## Description
Compare folder structures and templates visually.

## Features
- Compare two folder structures visually
- Compare two templates side-by-side
- Highlight differences
- Merge capabilities

## Benefits
- Easy structure analysis
- Template comparison
- Migration planning
- Better understanding of changes

## Category
Advanced File Operations

## Related
See ROADMAP.md for additional context" |};
  {| title := lit "Plugin System";
     body := lit "## Description
Create an extensible plugin system for custom functionality.

## Example
```javascript
// plugins/license-header.js
export default {
  name: 'license-header',
  fileTypes: ['.ts', '.js'],
  process(content, variables, filePath) {
    const header = `// Copyright ${variables.YEAR} ${variables.AUTHOR}\n// Licensed under MIT\n\n`;
    return header + content;
  }
};
```

## Plugin Capabilities
- Custom file processors
- Variable transformers
- Schema validators
- Post-creation hooks
- UI extensions

## Benefits
- Extensible architecture
- Community plugins
- Custom workflows
- Integration possibilities

## Category
Developer Features

## Related
See ROADMAP.md for additional context" |};
  {| title := lit "API/SDK";
     body := lit "## Description
Expose Structure Creator functionality as a library/SDK.

## Example
```typescript
import { StructureCreator } from 'structure-creator';

const creator = new StructureCreator();
const tree = await creator.parseSchema(xmlContent);
await creator.create(tree, '/output/path', {
  variables: { NAME: 'MyProject' }
});
```

## Benefits
- Programmatic usage
- Integration into other tools
- Custom automation
- Library ecosystem

## Category
Developer Features

## Related
See ROADMAP.md for additional context" |};
  {| title := lit "Undo/Redo Operations";
     body := lit "## Description
Add ability to undo/redo structure creation operations.

## Features
- Revert last created structure
- Multi-level undo history
- Confirmation for destructive undos
- Session-based history

## Benefits
- Safety net for mistakes
- Easier experimentation
- Confidence in operations
- Better user experience

## Category
Quality of Life

## Related
See ROADMAP.md for additional context" |};
  {| title := lit "Favorites Bar";
     body := lit "## Description
Pin frequently-used templates to a quick access favorites bar.

## Features
- Pin most-used templates to top bar
- Quick access with single click
- Drag to reorder
- Customizable slots

## Benefits
- Faster access to common templates
- Customizable workflow
- Improved efficiency
- Better organization

## Category
Quality of Life

## Related
See ROADMAP.md for additional context" |};
  {| title := lit "Statistics Dashboard";
     body := lit "## Description
Track and display usage statistics and insights.

## Features
- Templates created over time
- Most-used templates chart
- Total structures generated
- Files/folders created totals
- Usage trends

## Benefits
- Usage insights
- Template popularity data
- Activity tracking
- Productivity metrics

## Category
Quality of Life

## Related
See ROADMAP.md for additional context" |};
  {| title := lit "Multi-Language Support (i18n)";
     body := lit "## Description
Add internationalization support for multiple languages.

## Languages
- English (default)
- Spanish
- French
- German
- Japanese
- Chinese
- Community translations

## Benefits
- Global accessibility
- Wider user base
- Better user experience
- Community contributions

## Category
Quality of Life

## Related
See ROADMAP.md for additional context" |};
  {| title := lit "Custom Themes";
     body := lit "## Description
Add customizable themes and color schemes.

## Features
- Theme editor/creator
- Import/export themes
- Community theme gallery
- Per-template color coding
- Syntax highlighting themes for XML

## Benefits
- Personalization
- Better aesthetics
- Accessibility (dark mode, high contrast)
- User preference support

## Category
Quality of Life

## Related
See ROADMAP.md for additional context" |};
  {| title := lit "VS Code Extension";
     body := lit "## Description
Create a VS Code extension for Structure Creator.

## Features
- Create structures from command palette
- Right-click folder to scan as template
- Template browser sidebar
- Schema syntax highlighting
- IntelliSense for variables

## Benefits
- Seamless VS Code integration
- Better developer workflow
- IDE-native experience
- Increased adoption

## Category
Integration

## Related
See ROADMAP.md for additional context" |};
  {| title := lit "JetBrains Plugin";
     body := lit "## Description
Create plugins for JetBrains IDEs (IntelliJ, WebStorm, PyCharm, etc.).

## Features
- Similar functionality to VS Code extension
- Project template integration
- Tool window for template management
- IDE-specific optimizations

## Benefits
- JetBrains IDE support
- Wider IDE coverage
- Better developer experience
- Increased adoption

## Category
Integration

## Related
See ROADMAP.md for additional context" |};
  {| title := lit "Cloud Storage Integration";
     body := lit "## Description
Enable creating structures directly in cloud storage services.

## Supported Services
- Dropbox
- Google Drive
- OneDrive
- iCloud Drive

## Features
- Create structures directly in cloud storage
- Sync templates across devices
- Cloud-based template libraries
- Cross-platform synchronization

## Benefits
- Cloud workflow support
- Device synchronization
- Remote structure creation
- Backup capabilities

## Category
Integration

## Related
See ROADMAP.md for additional context" |};
  {| title := lit "Webhook Support";
     body := lit "## Description
Add webhook support for remote triggering and integrations.

## Features
- Trigger creation via HTTP webhook
- Integration with automation tools (Zapier, n8n)
- Slack/Discord notifications on creation
- CI/CD pipeline triggers

## Benefits
- Automation integrations
- Event-driven workflows
- Team notifications
- External tool integration

## Category
Integration

## Related
See ROADMAP.md for additional context" |}
].

(** ** The script *)

Section Script.

(** The world the script runs in: [sys.argv], [os.environ], and the server,
    which answers a request knowing the requests sent before it: [server h
    req] is how the call [urlopen(req)] ends when [h] lists the calls made
    before it.
    [json.loads] is Python's; [None] stands for the exception it raises on
    text that is no JSON document. *)
Variable argv : list str.
Variable environ : gmap str str.
Variable server : list request → request → answer.
Variable json_loads : str → option pyval.

(** [urllib.request.urlopen(req)], seen from the script: the call is
    recorded; when the exchange ends on a status in 200..299 the response is
    returned, on any other status [HTTPError] is raised, and without an HTTP
    response [URLError], which stands for every other exception of the
    call. *)
Definition urlopen (req : request) : M response := λ s,
  let s' := State (stdin s) (stdout s) (requests s ++ [req]) in
  match server (requests s) req with
  | Answer status reason fp =>
    if bool_decide (200 ≤ status < 300)
    then (Return (Response status fp), s')
    else (Raise (HTTPError status reason fp), s')
  | NoAnswer reason => (Raise (URLError reason), s')
  end.

Definition loads (s : str) : M pyval :=
  match json_loads s with
  | Some v => mret v
  | None => raise JSONDecodeError
  end.

(** Get GitHub token from various sources. *)
Definition get_github_token : M str :=
  (* Check command-line argument *)
  if bool_decide (1 < length argv)%nat then
    match argv !! 1%nat with
    | Some a => mret a
    | None => raise IndexError
    end
  else
    (* Check environment variable *)
    let token := environ !! lit "GITHUB_TOKEN" in
    match token with
    | Some (c :: t) => mret (c :: t)
    | _ =>
      (* Prompt user *)
      print [Txt (nl ++ lit "GitHub Personal Access Token required.")] ;;
      print [Txt (lit "Create one at: https://github.com/settings/tokens")] ;;
      print [Txt (lit "Required scope: 'repo' (Full control of private repositories)" ++ nl)] ;;
      line ← input (lit "Enter your GitHub token: ") ;
      let token := strip line in
      match token with
      | [] =>
        print [Txt (lit "Error: No token provided")] ;;
        sys_exit 1
      | _ => mret token
      end
    end.

Definition auth_headers (token : str) : gmap str str :=
  {[ lit "Authorization" := lit "token " ++ token;
     lit "Accept" := lit "application/vnd.github.v3+json" ]}.

Definition label_url : str :=
  lit "https://api.github.com/repos/" ++ REPO_OWNER ++ lit "/" ++ REPO_NAME
  ++ lit "/labels/feature".

Definition create_label_url : str :=
  lit "https://api.github.com/repos/" ++ REPO_OWNER ++ lit "/" ++ REPO_NAME
  ++ lit "/labels".

Definition issues_url : str :=
  lit "https://api.github.com/repos/" ++ REPO_OWNER ++ lit "/" ++ REPO_NAME
  ++ lit "/issues".

Definition label_payload : pyval :=
  PDict [(lit "name", PStr (lit "feature"));
         (lit "description", PStr (lit "New feature or enhancement"));
         (lit "color", PStr (lit "0E8A16"))].

(** Check if 'feature' label exists, create if it doesn't. *)
Definition check_and_create_label (token : str) : M unit :=
  let url := label_url in
  let headers := auth_headers token in
  let req := Request url None headers (lit "GET") in
  try_except
    (urlopen req ;;
     print [Txt (lit "✓ 'feature' label already exists")])
    (λ e, match e with
      | HTTPError code _ _ => Some (
          if bool_decide (code = 404) then
            (* Label doesn't exist, create it *)
            let create_url := create_label_url in
            data ← encode (Json.dumps label_payload) ;
            let create_req :=
              Request create_url (Some data)
                (<[ lit "Content-Type" := lit "application/json" ]> headers)
                (lit "POST") in
            try_except
              (urlopen create_req ;;
               print [Txt (lit "✓ Created 'feature' label")])
              (λ create_error, match create_error with
                | HTTPError _ _ _ => Some (
                    print [Txt (lit "⚠ Warning: Could not create 'feature' label: ");
                           StrExn create_error])
                | _ => None
                end)
          else
            print [Txt (lit "⚠ Warning: Error checking for 'feature' label: ");
                   StrExn e])
      | _ => None
      end).

Definition issue_payload (title body : str) : pyval :=
  PDict [(lit "title", PStr title);
         (lit "body", PStr body);
         (lit "labels", PList [PStr (lit "feature")])].

Definition issue_headers (token : str) : gmap str str :=
  {[ lit "Authorization" := lit "token " ++ token;
     lit "Accept" := lit "application/vnd.github.v3+json";
     lit "Content-Type" := lit "application/json" ]}.

(** Create a single GitHub issue. *)
Definition create_issue (token title body : str) : M bool :=
  let url := issues_url in
  data ← encode (Json.dumps (issue_payload title body)) ;
  let headers := issue_headers token in
  let req := Request url (Some data) headers (lit "POST") in
  try_except
    (response ← urlopen req ;
     raw ← read (resp_fp response) ;
     text ← decode raw ;
     result ← loads text ;
     number ← subscript result (lit "number") ;
     print [Txt (lit "✓ Created: " ++ title ++ lit " (#"); StrVal number; Txt (lit ")")] ;;
     mret true)
    (λ e, match e with
      | HTTPError code _ fp => Some (
          raw ← read fp ;
          error_body ← decode raw ;
          print [Txt (lit "✗ Failed to create: " ++ title)] ;;
          print [Txt (lit "  Error: " ++ str_of_int code ++ lit " - " ++ error_body)] ;;
          mret false)
      | _ => Some (
          print [Txt (lit "✗ Failed to create: " ++ title)] ;;
          print [Txt (lit "  Error: "); StrExn e] ;;
          mret false)
      end).

(** The loop of [main]: [for i, issue in enumerate(issues, 1)], with the two
    counters it updates. [total] is [len(ISSUES)]. *)
Fixpoint create_all (token : str) (total i : nat) (issues : list issue)
    (success_count failed_count : nat) : M (nat * nat) :=
  match issues with
  | [] => mret (success_count, failed_count)
  | issue :: rest =>
    print_end [Txt (lit "[" ++ str_of_int (Z.of_nat i) ++ lit "/"
                    ++ str_of_int (Z.of_nat total) ++ lit "] ")] [] ;;
    ok ← create_issue token (title issue) (body issue) ;
    if ok : bool
    then create_all token total (S i) rest (S success_count) failed_count
    else create_all token total (S i) rest success_count (S failed_count)
  end.

(** Main function to create all issues.  [main_on issues] is [main] with the
    module's global [ISSUES] as a parameter. *)
Definition main_on (issues : list issue) : M unit :=
  print [Txt (repeat_str (lit "=") 50)] ;;
  print [Txt (lit "Structure Creator - Roadmap Issues Creator")] ;;
  print [Txt (repeat_str (lit "=") 50)] ;;
  print [Txt (nl ++ lit "Repository: " ++ REPO_OWNER ++ lit "/" ++ REPO_NAME)] ;;
  print [Txt (lit "Total issues to create: "
              ++ str_of_int (Z.of_nat (length issues)) ++ nl)] ;;
  (* Get GitHub token *)
  token ← get_github_token ;
  print [Txt (nl ++ lit "Checking repository access...")] ;;
  (* Check and create feature label *)
  check_and_create_label token ;;
  print [Txt (nl ++ lit "Creating " ++ str_of_int (Z.of_nat (length issues))
              ++ lit " issues..." ++ nl)] ;;
  (* Create all issues *)
  counts ← create_all token (length issues) 1 issues 0 0 ;
  let success_count := counts.1 in
  let failed_count := counts.2 in
  (* Summary *)
  print [Txt (nl ++ repeat_str (lit "=") 50)] ;;
  print [Txt (lit "Summary:")] ;;
  print [Txt (lit "  ✓ Successfully created: "
              ++ str_of_int (Z.of_nat success_count) ++ lit " issues")] ;;
  (if bool_decide (0 < failed_count)%nat
   then print [Txt (lit "  ✗ Failed: "
                    ++ str_of_int (Z.of_nat failed_count) ++ lit " issues")]
   else mret ()) ;;
  print [Txt (repeat_str (lit "=") 50)] ;;
  print [Txt (nl ++ lit "View issues at: https://github.com/" ++ REPO_OWNER
              ++ lit "/" ++ REPO_NAME ++ lit "/issues")] ;;
  if bool_decide (0 < failed_count)%nat then sys_exit 1 else mret ().

Definition main : M unit := main_on ISSUES.

End Script.

(** ** What requests and answers mean for the run *)

(** The request [create_issue] builds for a draft. *)
Definition issue_request (token title body : str) : request :=
  Request issues_url (Some (Json.dumps (issue_payload title body)))
    (issue_headers token) (lit "POST").

(** The two requests of [check_and_create_label]. *)
Definition label_get_request (token : str) : request :=
  Request label_url None (auth_headers token) (lit "GET").

Definition label_post_request (token : str) : request :=
  Request create_label_url (Some (Json.dumps label_payload))
    (<[ lit "Content-Type" := lit "application/json" ]> (auth_headers token))
    (lit "POST").

(** A request carries the credentials of [token]. *)
Definition carries (token : str) (req : request) : Prop :=
  headers req !! lit "Authorization" = Some (lit "token " ++ token)
  ∧ headers req !! lit "Accept" = Some (lit "application/vnd.github.v3+json").

(** The answer is a response with a 2xx status. *)
Definition is_2xx (a : answer) : bool :=
  match a with
  | Answer status _ _ => bool_decide (200 ≤ status < 300)
  | NoAnswer _ => false
  end.

(** The value under ['number'] when the answer is a 2xx response whose body
    can be read, is UTF-8, parses as JSON and is an object with that key. *)
Definition issue_number (json_loads : str → option pyval) (a : answer) : option pyval :=
  match a with
  | Answer status _ (Stream raw) =>
    if bool_decide (200 ≤ status < 300) then
      text ← utf8_decode raw ;
      v ← json_loads text ;
      match v with
      | PDict entries => dict_get entries (lit "number")
      | _ => None
      end
    else None
  | _ => None
  end.

(** The exception that leaves the [except HTTPError] clause of
    [create_issue]: the body of an error response that cannot be read or is
    not UTF-8. *)
Definition handler_raises (a : answer) : option exn :=
  match a with
  | Answer status _ fp =>
    if bool_decide (200 ≤ status < 300) then None
    else match fp with
         | Broken reason => Some (URLError reason)
         | Stream raw =>
           match utf8_decode raw with
           | Some _ => None
           | None => Some UnicodeDecodeError
           end
         end
  | NoAnswer _ => None
  end.

(** The answers a server gives to a sequence of requests sent after [h]. *)
Fixpoint answers (server : list request → request → answer)
    (h : list request) (reqs : list request) : list answer :=
  match reqs with
  | [] => []
  | r :: rest => server h r :: answers server (h ++ [r]) rest
  end.

Definition ascii_str (s : str) : Prop := Forall (λ c, 0 ≤ c < 128) s.

(** ** What a run leaves behind *)

(** The state after a request was sent, and after lines were printed. *)
Definition sent (req : request) (s : state) : state :=
  State (stdin s) (stdout s) (requests s ++ [req]).

Definition printed (lines : list (list frag)) (s : state) : state :=
  State (stdin s) (stdout s ++ lines) (requests s).

Definition is_space (c : Z) : Prop := isspace c = true.

(** A string that is empty, or starts and ends with a character that is no
    whitespace. *)
Definition trimmed (s : str) : Prop :=
  match s with
  | [] => True
  | c :: _ => isspace c = false ∧ ∃ d, last s = Some d ∧ isspace d = false
  end.

Definition trimmedb (s : str) : bool :=
  match s with
  | [] => true
  | c :: _ =>
    negb (isspace c)
    && match last s with
       | Some d => negb (isspace d)
       | None => false
       end
  end.

(** The environment holds no usable token: [GITHUB_TOKEN] is unset or empty. *)
Definition env_token_missing (environ : gmap str str) : Prop :=
  environ !! lit "GITHUB_TOKEN" = None ∨ environ !! lit "GITHUB_TOKEN" = Some [].

(** What [get_github_token] writes before it reads the token. *)
Definition prompt_lines : list (list frag) :=
  [[Txt (nl ++ lit "GitHub Personal Access Token required."); Txt nl];
   [Txt (lit "Create one at: https://github.com/settings/tokens"); Txt nl];
   [Txt (lit "Required scope: 'repo' (Full control of private repositories)" ++ nl); Txt nl];
   [Txt (lit "Enter your GitHub token: ")]].

Definition draft_request (token : str) (d : issue) : request :=
  issue_request token (title d) (body d).

(** The lines of [main] around its three steps. *)
Definition progress (i total : nat) : list frag :=
  [Txt (lit "[" ++ str_of_int (Z.of_nat i) ++ lit "/"
        ++ str_of_int (Z.of_nat total) ++ lit "] "); Txt []].

Definition prologue (issues : list issue) : list (list frag) :=
  [[Txt (repeat_str (lit "=") 50); Txt nl];
   [Txt (lit "Structure Creator - Roadmap Issues Creator"); Txt nl];
   [Txt (repeat_str (lit "=") 50); Txt nl];
   [Txt (nl ++ lit "Repository: " ++ REPO_OWNER ++ lit "/" ++ REPO_NAME); Txt nl];
   [Txt (lit "Total issues to create: "
         ++ str_of_int (Z.of_nat (length issues)) ++ nl); Txt nl]].

Definition checking : list frag :=
  [Txt (nl ++ lit "Checking repository access..."); Txt nl].

Definition creating (issues : list issue) : list frag :=
  [Txt (nl ++ lit "Creating " ++ str_of_int (Z.of_nat (length issues))
        ++ lit " issues..." ++ nl); Txt nl].

Definition summary (success_count failed_count : nat) : list (list frag) :=
  [[Txt (nl ++ repeat_str (lit "=") 50); Txt nl];
   [Txt (lit "Summary:"); Txt nl];
   [Txt (lit "  ✓ Successfully created: "
         ++ str_of_int (Z.of_nat success_count) ++ lit " issues"); Txt nl]]
  ++ (if bool_decide (0 < failed_count)%nat
      then [[Txt (lit "  ✗ Failed: "
                  ++ str_of_int (Z.of_nat failed_count) ++ lit " issues"); Txt nl]]
      else [])
  ++ [[Txt (repeat_str (lit "=") 50); Txt nl];
      [Txt (nl ++ lit "View issues at: https://github.com/" ++ REPO_OWNER
            ++ lit "/" ++ REPO_NAME ++ lit "/issues"); Txt nl]].

Section Outcomes.

Variable server : list request → request → answer.
Variable json_loads : str → option pyval.

(** The answer makes [create_issue] return [True]. *)
Definition created (a : answer) : bool :=
  match issue_number json_loads a with
  | Some _ => true
  | None => false
  end.

(** The second line [create_issue] prints for an answer it counts as a
    failure. *)
Definition failure_detail (a : answer) : list frag :=
  match a with
  | NoAnswer reason => [Txt (lit "  Error: "); StrExn (URLError reason); Txt nl]
  | Answer status _ fp =>
    if bool_decide (200 ≤ status < 300) then
      [Txt (lit "  Error: ");
       StrExn match fp with
              | Broken reason => URLError reason
              | Stream raw =>
                match utf8_decode raw with
                | None => UnicodeDecodeError
                | Some text =>
                  match json_loads text with
                  | None => JSONDecodeError
                  | Some (PDict _) => KeyError (lit "number")
                  | Some _ => TypeError
                  end
                end
              end;
       Txt nl]
    else
      [Txt (lit "  Error: " ++ str_of_int status ++ lit " - "
            ++ match fp with
               | Stream raw => default [] (utf8_decode raw)
               | Broken _ => []
               end);
       Txt nl]
  end.

(** The requests [check_and_create_label] sends after the requests [h]. *)
Definition label_requests (token : str) (h : list request) : list request :=
  match server h (label_get_request token) with
  | Answer status _ _ =>
    if bool_decide (200 ≤ status < 300) then [label_get_request token]
    else if bool_decide (status = 404)
         then [label_get_request token; label_post_request token]
         else [label_get_request token]
  | NoAnswer _ => [label_get_request token]
  end.

(** The exception that leaves [check_and_create_label]: no HTTP answer to
    one of its requests. *)
Definition label_raises (token : str) (h : list request) : option exn :=
  match server h (label_get_request token) with
  | Answer status _ _ =>
    if bool_decide (200 ≤ status < 300) then None
    else if bool_decide (status = 404) then
      match server (h ++ [label_get_request token]) (label_post_request token) with
      | NoAnswer reason => Some (URLError reason)
      | Answer _ _ _ => None
      end
    else None
  | NoAnswer reason => Some (URLError reason)
  end.

End Outcomes.

(** ** Worlds the script can meet *)

(** The label exists; the first issue is refused with a JSON error body, the
    answer to the second is an error page that is not UTF-8. *)
Definition latin1_error_server (h : list request) (req : request) : answer :=
  if bool_decide (method req = lit "GET") then Answer 200 (lit "OK") (Stream [])
  else if bool_decide (length h = 1%nat)
  then Answer 422 (lit "Unprocessable Entity") (Stream (octets "{}"))
  else Answer 502 (lit "Bad Gateway") (Stream [69; 114; 114; 101; 117; 114; 32; 233]).

(** The server that gives every request the same answer. *)
Definition always (a : answer) (h : list request) (req : request) : answer := a.

(** No request gets an HTTP answer. *)
Definition unreachable_server : list request → request → answer :=
  always (NoAnswer (lit "Name or service not known")).

(** Every request is refused with status 401 and a JSON error body. *)
Definition refusing_server : list request → request → answer :=
  always (Answer 401 (lit "Unauthorized") (Stream (octets "{}"))).

(** The JSON document with the one key [number]; it is ASCII, so its
    octets are its code points. *)
Definition number_document : str :=
  lit "{" ++ dquote ++ lit "number" ++ dquote ++ lit ": 7}".

(** The label is absent; everything else is created. *)
Definition fresh_repository_server (h : list request) (req : request) : answer :=
  if bool_decide (method req = lit "GET")
  then Answer 404 (lit "Not Found") (Stream (octets "{}"))
  else Answer 201 (lit "Created") (Stream number_document).

(** A [json.loads] that knows three documents, for running the model. *)
Definition toy_loads (text : str) : option pyval :=
  if bool_decide (text = lit "{}") then Some (PDict [])
  else if bool_decide (text = lit "[]") then Some (PList [])
  else if bool_decide (text = number_document)
  then Some (PDict [(lit "number", PInt 7)])
  else None.

(** The label exists; the second issue is refused with status 422, the
    others are created. *)
Definition second_refused_server (h : list request) (req : request) : answer :=
  if bool_decide (method req = lit "GET") then Answer 200 (lit "OK") (Stream [])
  else if bool_decide (length h = 2%nat)
  then Answer 422 (lit "Unprocessable Entity") (Stream (octets "{}"))
  else Answer 201 (lit "Created") (Stream number_document).

Definition three_drafts : list issue :=
  [Issue (lit "first") (lit "one"); Issue (lit "second") (lit "two");
   Issue (lit "third") (lit "three")].

Definition script_argv : list str := [lit "create-roadmap-issues.py"].

Definition initial (lines : list str) : state := State lines [] [].

(** A token, for the runs below. *)
Definition ghp : str := lit "ghp_token".

(** ** Further outcomes *)

(** The exception of the first answer, in the order of the requests, whose
    error body cannot be read or decoded. *)
Fixpoint first_raise (ans : list answer) : option exn :=
  match ans with
  | [] => None
  | a :: rest =>
    match handler_raises a with
    | Some e => Some e
    | None => first_raise rest
    end
  end.

(** The answer is an HTTP response with status 404. *)
Definition is_404 (a : answer) : bool :=
  match a with
  | Answer status _ _ => bool_decide (status = 404)
  | NoAnswer _ => false
  end.

(** The answer is an HTTP response, whatever its status. *)
Definition is_http (a : answer) : bool :=
  match a with
  | Answer _ _ _ => true
  | NoAnswer _ => false
  end.


(** No answer makes the handler of [create_issue] raise. *)
Definition decodable (a : answer) : bool :=
  match handler_raises a with
  | Some _ => false
  | None => true
  end.

(** * Properties *)

(** ** The model on small inputs *)

Example strip_demo : strip (lit "  ab c	 ") = lit "ab c".
Proof. reflexivity. Qed.

Example lit_demo : lit "✓" = [10003].
Proof. reflexivity. Qed.

Example str_of_int_demo :
  str_of_int 37 = lit "37" ∧ str_of_int 0 = lit "0" ∧ str_of_int (-120) = lit "-120".
Proof. repeat split; reflexivity. Qed.

Example utf8_decode_demo :
  utf8_decode [69; 114; 114; 101; 117; 114; 32; 233] = None
  ∧ utf8_decode [195; 169] = Some [233]
  ∧ utf8_decode [192; 128] = None
  ∧ utf8_decode [237; 160; 128] = None.
Proof. repeat split; reflexivity. Qed.

Example dumps_demo :
  Json.dumps (PDict [(lit "name", PStr (lit "a" ++ dquote ++ lit "é
😀")); (lit "labels", PList [PStr (lit "feature"); PInt 7; PNone])])
  = lit "{" ++ dquote ++ lit "name" ++ dquote ++ lit ": " ++ dquote
    ++ lit "a\" ++ dquote ++ lit "\u00e9\n\ud83d\ude00" ++ dquote ++ lit ", "
    ++ dquote ++ lit "labels" ++ dquote ++ lit ": [" ++ dquote ++ lit "feature"
    ++ dquote ++ lit ", 7, null]}".
Proof. vm_compute. reflexivity. Qed.


(** ** Strings *)

Lemma lstrip_spaces (pre s : str) :
  Forall is_space pre → lstrip (pre ++ s) = lstrip s.
Proof.
  induction 1 as [|c pre Hc _ IH]; [done|].
  cbn [app lstrip]. by rewrite Hc.
Qed.

Lemma lstrip_head (c : Z) (s : str) : isspace c = false → lstrip (c :: s) = c :: s.
Proof. intros Hc. cbn [lstrip]. by rewrite Hc. Qed.

Lemma lstrip_all_spaces (s : str) : Forall is_space s → lstrip s = [].
Proof.
  intros Hs. rewrite <- (app_nil_r s). by rewrite lstrip_spaces.
Qed.

Lemma strip_spec (pre core post : str) :
  Forall is_space pre → Forall is_space post → trimmed core →
  strip (pre ++ core ++ post) = core.
Proof.
  intros Hpre Hpost Hcore. unfold strip, rstrip.
  rewrite lstrip_spaces by done.
  destruct core as [|c core]; cbn [app].
  - rewrite (lstrip_all_spaces post) by done. cbn.
    done.
  - destruct Hcore as (Hc & d & Hd & Hds).
    rewrite lstrip_head by done.
    change (c :: core ++ post) with ((c :: core) ++ post).
    rewrite reverse_app, lstrip_spaces by by apply Forall_reverse.
    apply last_Some in Hd as [core' Hd]. rewrite Hd.
    rewrite reverse_snoc, lstrip_head by done.
    by rewrite reverse_cons, reverse_involutive.
Qed.

Lemma strip_all_spaces (s : str) : Forall is_space s → strip s = [].
Proof.
  intros Hs. rewrite <- (app_nil_r s).
  by apply (strip_spec s [] []).
Qed.

Lemma spaces_decide (s : str) : forallb isspace s = true → Forall is_space s.
Proof.
  induction s as [|c s IH]; [constructor|].
  cbn [forallb]. intros [Hc Hs]%andb_prop. by constructor; [|apply IH].
Qed.

Lemma trimmed_decide (s : str) : trimmedb s = true → trimmed s.
Proof.
  destruct s as [|c s]; [done|]. unfold trimmedb, trimmed.
  intros [Hc Hd]%andb_prop. split; [by apply negb_true_iff|].
  destruct (last (c :: s)) as [d|]; [|done].
  exists d. split; [done|]. by apply negb_true_iff.
Qed.

Lemma utf8_encode_ascii (s : str) : ascii_str s → utf8_encode s = Some s.
Proof.
  induction 1 as [|c s Hc _ IH]; [done|].
  cbn [utf8_encode]. rewrite IH. unfold utf8_encode_char.
  by rewrite bool_decide_eq_true_2.
Qed.

Lemma hexdigit_ascii (n : Z) : 0 ≤ Json.hexdigit (n mod 16) < 128.
Proof.
  pose proof (Z.mod_pos_bound n 16 eq_refl).
  unfold Json.hexdigit. case_bool_decide; lia.
Qed.

Lemma u_escape_ascii (n : Z) : ascii_str (Json.u_escape n).
Proof.
  unfold Json.u_escape, ascii_str.
  repeat (apply Forall_cons; split; [first [lia | apply hexdigit_ascii] |]).
  apply Forall_nil_2.
Qed.

Lemma escape_char_ascii (c : Z) : ascii_str (Json.escape_char c).
Proof.
  unfold Json.escape_char.
  repeat case_bool_decide;
    try (apply Forall_app; split); try apply u_escape_ascii;
    unfold ascii_str; repeat (apply Forall_cons; split; [lia|]); apply Forall_nil_2.
Qed.

Lemma encode_string_ascii (s : str) : ascii_str (Json.encode_string s).
Proof.
  unfold Json.encode_string, ascii_str, dquote.
  rewrite !Forall_app. split_and!.
  - apply Forall_cons; split; [lia | apply Forall_nil_2].
  - induction s as [|c s IH]; cbn; [apply Forall_nil_2|].
    apply Forall_app. split; [apply escape_char_ascii | apply IH].
  - apply Forall_cons; split; [lia | apply Forall_nil_2].
Qed.

Lemma lit_ascii_decide (s : str) :
  bool_decide (ascii_str s) = true → ascii_str s.
Proof. apply bool_decide_eq_true_1. Qed.

Ltac lit_ascii := apply lit_ascii_decide; vm_compute; reflexivity.

Lemma issue_payload_ascii (title body : str) :
  ascii_str (Json.dumps (issue_payload title body)).
Proof.
  unfold issue_payload. cbn [Json.dumps map Json.join fst snd].
  unfold ascii_str. rewrite !Forall_app.
  split_and!; try apply encode_string_ascii; lit_ascii.
Qed.

Lemma label_payload_ascii : ascii_str (Json.dumps label_payload).
Proof. lit_ascii. Qed.

Lemma encode_issue_payload (title body : str) (s : state) :
  encode (Json.dumps (issue_payload title body)) s
  = (Return (Json.dumps (issue_payload title body)), s).
Proof.
  unfold encode. by rewrite utf8_encode_ascii by apply issue_payload_ascii.
Qed.

Lemma encode_label_payload (s : state) :
  encode (Json.dumps label_payload) s = (Return (Json.dumps label_payload), s).
Proof.
  unfold encode. by rewrite utf8_encode_ascii by apply label_payload_ascii.
Qed.

(** ** The functions of the script, case by case *)

(** Runs the prints that are left and compares the two states. *)
Ltac outcome :=
  cbv [print print_end write printed sent mbind M_bind mret M_ret raise sys_exit];
  cbn [stdin stdout requests];
  rewrite <- ?app_assoc; try reflexivity.

Section Properties.

Variable argv : list str.
Variable environ : gmap str str.
Variable server : list request → request → answer.
Variable json_loads : str → option pyval.

(** [create_issue] by the answer of the server: the handler raises, the
    issue was created, or the failure is reported. *)
Lemma create_issue_spec (token title body : str) (s : state) :
  let req := issue_request token title body in
  let a := server (requests s) req in
  create_issue server json_loads token title body s =
  match handler_raises a with
  | Some e => (Raise e, sent req s)
  | None =>
    match issue_number json_loads a with
    | Some number =>
      (Return true,
       printed [[Txt (lit "✓ Created: " ++ title ++ lit " (#"); StrVal number;
                 Txt (lit ")"); Txt nl]] (sent req s))
    | None =>
      (Return false,
       printed [[Txt (lit "✗ Failed to create: " ++ title); Txt nl];
                failure_detail json_loads a] (sent req s))
    end
  end.
Proof.
  intros req a. unfold create_issue.
  unfold mbind at 1. unfold M_bind at 1. rewrite encode_issue_payload.
  cbv beta iota zeta. fold (issue_request token title body). fold req.
  subst a. cbv [try_except urlopen mbind M_bind].
  destruct (server (requests s) req) as [status reason fp|reason];
    cbn [handler_raises issue_number failure_detail].
  - case_bool_decide.
    + cbv [mbind M_bind mret M_ret resp_fp read raise].
      destruct fp as [raw|why]; [|by outcome].
      cbv [decode mbind M_bind mret M_ret raise option_bind].
      destruct (utf8_decode raw) as [text|]; [|by outcome].
      cbv [loads mret M_ret raise].
      destruct (json_loads text) as [v|]; [|by outcome].
      destruct v; cbv [subscript mret M_ret raise]; try by outcome.
      destruct (dict_get _ _); by outcome.
    + cbv [mbind M_bind mret M_ret read raise].
      destruct fp as [raw|why]; [|by outcome].
      cbv [decode mbind M_bind mret M_ret raise default].
      destruct (utf8_decode raw) as [text|]; by outcome.
  - by outcome.
Qed.


(** [get_github_token] by the source the token comes from. *)
Lemma token_from_argv (a : str) (s : state) :
  argv !! 1%nat = Some a → get_github_token argv environ s = (Return a, s).
Proof.
  intros Ha. unfold get_github_token.
  rewrite bool_decide_eq_true_2 by (apply lookup_lt_Some in Ha; lia).
  by rewrite Ha.
Qed.

Lemma token_from_environ (e : str) (s : state) :
  argv !! 1%nat = None → environ !! lit "GITHUB_TOKEN" = Some e → e ≠ [] →
  get_github_token argv environ s = (Return e, s).
Proof.
  intros Ha He Hne. unfold get_github_token.
  rewrite bool_decide_eq_false_2 by (apply lookup_ge_None in Ha; lia).
  rewrite He. by destruct e.
Qed.

Lemma token_from_prompt (line : str) (rest : list str) (s : state) :
  argv !! 1%nat = None → env_token_missing environ → stdin s = line :: rest →
  get_github_token argv environ s =
  match strip line with
  | [] => (SystemExit 1,
           State rest (stdout s ++ prompt_lines
                       ++ [[Txt (lit "Error: No token provided"); Txt nl]])
             (requests s))
  | token => (Return token, State rest (stdout s ++ prompt_lines) (requests s))
  end.
Proof.
  intros Ha He Hin. unfold get_github_token.
  rewrite bool_decide_eq_false_2 by (apply lookup_ge_None in Ha; lia).
  assert (∀ k : M str,
    match environ !! lit "GITHUB_TOKEN" with
    | Some (c :: t) => mret (c :: t)
    | _ => k
    end = k) as -> by (intros k; by destruct He as [-> | ->]).
  cbv [input readline print write mbind M_bind mret M_ret sys_exit].
  cbn [stdin stdout requests]. rewrite Hin.
  unfold prompt_lines.
  destruct (strip line); cbn [stdin stdout requests]; rewrite <- ?app_assoc; reflexivity.
Qed.

Lemma token_at_eof (s : state) :
  argv !! 1%nat = None → env_token_missing environ → stdin s = [] →
  get_github_token argv environ s =
  (Raise EOFError, State [] (stdout s ++ prompt_lines) (requests s)).
Proof.
  intros Ha He Hin. unfold get_github_token.
  rewrite bool_decide_eq_false_2 by (apply lookup_ge_None in Ha; lia).
  assert (∀ k : M str,
    match environ !! lit "GITHUB_TOKEN" with
    | Some (c :: t) => mret (c :: t)
    | _ => k
    end = k) as -> by (intros k; by destruct He as [-> | ->]).
  cbv [input readline print write mbind M_bind mret M_ret sys_exit].
  cbn [stdin stdout requests]. rewrite Hin.
  unfold prompt_lines. rewrite <- ?app_assoc. reflexivity.
Qed.

(** The resolver sends nothing. *)
Lemma get_github_token_requests (s : state) :
  requests (get_github_token argv environ s).2 = requests s.
Proof.
  destruct (argv !! 1%nat) as [a|] eqn:Ha.
  { by rewrite (token_from_argv a). }
  destruct (environ !! lit "GITHUB_TOKEN") as [[|c e]|] eqn:He.
  - destruct (stdin s) as [|line rest] eqn:Hin.
    + rewrite token_at_eof; [done..|by right|done].
    + rewrite (token_from_prompt line rest); [|done|by right|done].
      by destruct (strip line).
  - by rewrite (token_from_environ (c :: e)).
  - destruct (stdin s) as [|line rest] eqn:Hin.
    + rewrite token_at_eof; [done..|by left|done].
    + rewrite (token_from_prompt line rest); [|done|by left|done].
      by destruct (strip line).
Qed.

(** The resolver reads only the argument vector, the environment and
    standard input. *)
Lemma get_github_token_reads (s s0 : state) :
  stdin s0 = stdin s →
  (get_github_token argv environ s0).1 = (get_github_token argv environ s).1.
Proof.
  intros Hin.
  destruct (argv !! 1%nat) as [a|] eqn:Ha.
  { by rewrite !(token_from_argv a). }
  destruct (environ !! lit "GITHUB_TOKEN") as [[|c e]|] eqn:He.
  - destruct (stdin s) as [|line rest] eqn:Hs.
    + rewrite !token_at_eof; [done..|by right|congruence|done|by right|done].
    + rewrite !(token_from_prompt line rest); [|done|by right|congruence|done|by right|done].
      by destruct (strip line).
  - by rewrite !(token_from_environ (c :: e)).
  - destruct (stdin s) as [|line rest] eqn:Hs.
    + rewrite !token_at_eof; [done..|by left|congruence|done|by left|done].
    + rewrite !(token_from_prompt line rest); [|done|by left|congruence|done|by left|done].
      by destruct (strip line).
Qed.

(** [check_and_create_label] by the answers to its one or two requests. *)
Lemma check_and_create_label_spec (token : str) (s : state) :
  let get := label_get_request token in
  let post := label_post_request token in
  check_and_create_label server token s =
  match server (requests s) get with
  | NoAnswer reason => (Raise (URLError reason), sent get s)
  | Answer status reason fp =>
    if bool_decide (200 ≤ status < 300) then
      (Return (), printed [[Txt (lit "✓ 'feature' label already exists"); Txt nl]]
                    (sent get s))
    else if bool_decide (status = 404) then
      match server (requests s ++ [get]) post with
      | NoAnswer reason2 => (Raise (URLError reason2), sent post (sent get s))
      | Answer status2 reason2 fp2 =>
        if bool_decide (200 ≤ status2 < 300) then
          (Return (), printed [[Txt (lit "✓ Created 'feature' label"); Txt nl]]
                        (sent post (sent get s)))
        else
          (Return (),
           printed [[Txt (lit "⚠ Warning: Could not create 'feature' label: ");
                     StrExn (HTTPError status2 reason2 fp2); Txt nl]]
             (sent post (sent get s)))
      end
    else
      (Return (),
       printed [[Txt (lit "⚠ Warning: Error checking for 'feature' label: ");
                 StrExn (HTTPError status reason fp); Txt nl]]
         (sent get s))
  end.
Proof.
  intros get post. unfold check_and_create_label.
  cbv beta iota zeta. fold label_get_request. fold (label_get_request token). fold get.
  cbv [try_except urlopen mbind M_bind].
  destruct (server (requests s) get) as [status reason fp|reason]; [|by outcome].
  case_bool_decide; [by outcome|].
  case_bool_decide; [|by outcome].
  rewrite encode_label_payload.
  cbn [stdin stdout requests]. fold (label_post_request token). fold post.
  destruct (server (requests s ++ [get]) post) as [status2 reason2 fp2|reason2];
    [|by outcome].
  case_bool_decide; by outcome.
Qed.


Lemma create_all_cons (token : str) (total i : nat) (d : issue)
    (rest : list issue) (sc fc : nat) (s : state) :
  let s1 := printed [progress i total] s in
  create_all server json_loads token total i (d :: rest) sc fc s =
  match create_issue server json_loads token (title d) (body d) s1 with
  | (Return true, s2) =>
    create_all server json_loads token total (S i) rest (S sc) fc s2
  | (Return false, s2) =>
    create_all server json_loads token total (S i) rest sc (S fc) s2
  | (Raise e, s2) => (Raise e, s2)
  | (SystemExit c, s2) => (SystemExit c, s2)
  end.
Proof.
  cbn [create_all]. cbv [mbind M_bind print_end write].
  fold (progress i total).
  change (State (stdin s) (stdout s ++ [progress i total]) (requests s))
    with (printed [progress i total] s).
  destruct (create_issue _ _ _ _ _ _) as [[[]| |] s2]; done.
Qed.

(** Without a failing error body the loop goes through the whole list and
    counts every answer once. *)
Lemma create_all_tally (token : str) (total : nat) (issues : list issue) :
  ∀ (i sc fc : nat) (s : state),
  let reqs := draft_request token <$> issues in
  let ans := answers server (requests s) reqs in
  Forall (λ a, handler_raises a = None) ans →
  ∃ s',
    create_all server json_loads token total i issues sc fc s =
      (Return ((sc + length (filter (λ a, created json_loads a = true) ans))%nat,
               (fc + length (filter (λ a, created json_loads a = false) ans))%nat), s')
    ∧ requests s' = requests s ++ reqs
    ∧ stdin s' = stdin s.
Proof.
  induction issues as [|d rest IH]; intros i sc fc s reqs ans Hans.
  - exists s. cbn. rewrite !Nat.add_0_r, app_nil_r. done.
  - rewrite create_all_cons. cbv zeta. rewrite create_issue_spec. cbv zeta.
    subst reqs ans. cbn [fmap list_fmap answers] in *.
    fold (draft_request token d) in *.
    change (requests (printed [progress i total] s)) with (requests s).
    apply Forall_cons in Hans as [Ha Hans]. rewrite Ha.
    set (a := server (requests s) (draft_request token d)) in *.
    destruct (issue_number json_loads a) as [number|] eqn:Hnum.
    + match goal with |- context [create_all _ _ _ _ _ _ _ _ ?s2] =>
        destruct (IH (S i) (S sc) fc s2) as (s' & Hrun & Hreq & Hin) end.
      { exact Hans. }
      exists s'. rewrite Hrun.
      rewrite filter_cons_True by (unfold created; by rewrite Hnum).
      rewrite filter_cons_False by (unfold created; by rewrite Hnum).
      cbn [requests printed sent stdin] in *.
      split_and!; [cbn [length]; by rewrite Nat.add_succ_comm | |done].
      rewrite Hreq. cbn [requests printed sent]. by rewrite <- app_assoc.
    + match goal with |- context [create_all _ _ _ _ _ _ _ _ ?s2] =>
        destruct (IH (S i) sc (S fc) s2) as (s' & Hrun & Hreq & Hin) end.
      { exact Hans. }
      exists s'. rewrite Hrun.
      rewrite filter_cons_False by (unfold created; by rewrite Hnum).
      rewrite filter_cons_True by (unfold created; by rewrite Hnum).
      cbn [requests printed sent stdin] in *.
      split_and!; [cbn [length]; by rewrite Nat.add_succ_comm | |done].
      rewrite Hreq. cbn [requests printed sent]. by rewrite <- app_assoc.
Qed.

(** Whatever the server answers, the loop sends the requests of a prefix of
    the list, in order; it returns only after the whole list. *)
Lemma create_all_run (token : str) (total : nat) (issues : list issue) :
  ∀ (i sc fc : nat) (s : state),
  let reqs := draft_request token <$> issues in
  let run := create_all server json_loads token total i issues sc fc s in
  ∃ n : nat,
    (n ≤ length issues)%nat
    ∧ requests run.2 = requests s ++ take n reqs
    ∧ stdin run.2 = stdin s
    ∧ match run.1 with
      | Return counts =>
        n = length issues ∧ (counts.1 + counts.2 = sc + fc + length issues)%nat
      | Raise _ => (0 < n)%nat
      | SystemExit _ => False
      end.
Proof.
  induction issues as [|d rest IH]; intros i sc fc s reqs run.
  - exists 0%nat. subst run. cbn. rewrite app_nil_r. split_and!; [done..|lia].
  - subst run. rewrite create_all_cons. cbv zeta. rewrite create_issue_spec.
    cbv zeta. subst reqs. cbn [fmap list_fmap]. fold (draft_request token d).
    change (requests (printed [progress i total] s)) with (requests s).
    set (a := server (requests s) (draft_request token d)).
    destruct (handler_raises a) as [e|].
    { exists 1%nat. cbn. split_and!; [lia|done|done|lia]. }
    destruct (issue_number json_loads a) as [number|].
    + match goal with |- context [create_all _ _ _ _ _ _ _ _ ?s2] =>
        destruct (IH (S i) (S sc) fc s2) as (n & Hn & Hreq & Hin & Hres) end.
      exists (S n). split_and!.
      * cbn. lia.
      * rewrite Hreq. cbn [requests printed sent take]. by rewrite <- app_assoc.
      * by rewrite Hin.
      * destruct (create_all _ _ _ _ _ _ _ _ _).1 as [counts|e|c]; [|lia|done].
        cbn [length]. lia.
    + match goal with |- context [create_all _ _ _ _ _ _ _ _ ?s2] =>
        destruct (IH (S i) sc (S fc) s2) as (n & Hn & Hreq & Hin & Hres) end.
      exists (S n). split_and!.
      * cbn. lia.
      * rewrite Hreq. cbn [requests printed sent take]. by rewrite <- app_assoc.
      * by rewrite Hin.
      * destruct (create_all _ _ _ _ _ _ _ _ _).1 as [counts|e|c]; [|lia|done].
        cbn [length]. lia.
Qed.


Lemma check_and_create_label_run (token : str) (s : state) :
  let run := check_and_create_label server token s in
  requests run.2 = requests s ++ label_requests server token (requests s)
  ∧ stdin run.2 = stdin s
  ∧ run.1 = match label_raises server token (requests s) with
            | Some e => Raise e
            | None => Return ()
            end.
Proof.
  cbv zeta. rewrite check_and_create_label_spec. cbv zeta.
  unfold label_requests, label_raises.
  destruct (server (requests s) (label_get_request token)) as [st r fp|r]; [|done].
  case_bool_decide; [done|].
  case_bool_decide; [|done].
  destruct (server _ (label_post_request token)) as [st2 r2 fp2|r2].
  - case_bool_decide; cbn; by rewrite <- app_assoc.
  - cbn. by rewrite <- app_assoc.
Qed.

(** [main] as the sequence of its three steps. *)
Lemma main_on_steps (issues : list issue) (s : state) :
  main_on argv environ server json_loads issues s =
  match get_github_token argv environ (printed (prologue issues) s) with
  | (Return token, s2) =>
    match check_and_create_label server token (printed [checking] s2) with
    | (Return _, s4) =>
      match create_all server json_loads token (length issues) 1 issues 0 0
              (printed [creating issues] s4) with
      | (Return counts, s6) =>
        (if bool_decide (0 < counts.2)%nat then SystemExit 1 else Return (),
         printed (summary counts.1 counts.2) s6)
      | (Raise e, s6) => (Raise e, s6)
      | (SystemExit c, s6) => (SystemExit c, s6)
      end
    | (Raise e, s4) => (Raise e, s4)
    | (SystemExit c, s4) => (SystemExit c, s4)
    end
  | (Raise e, s2) => (Raise e, s2)
  | (SystemExit c, s2) => (SystemExit c, s2)
  end.
Proof.
  unfold main_on.
  cbv [mbind M_bind print write]. cbn [stdin stdout requests].
  rewrite <- !app_assoc.
  change (State (stdin s) (stdout s ++ _) (requests s))
    with (printed (prologue issues) s).
  destruct (get_github_token _ _ _) as [[token|e|c] s2]; [|done..].
  change (State (stdin s2) (stdout s2 ++ _) (requests s2))
    with (printed [checking] s2).
  destruct (check_and_create_label _ _ _) as [[[]|e|c] s4]; [|done..].
  change (State (stdin s4) (stdout s4 ++ _) (requests s4))
    with (printed [creating issues] s4).
  destruct (create_all _ _ _ _ _ _ _ _ _) as [[[sc fc]|e|c] s6]; [|done..].
  cbn [fst snd]. unfold summary, printed.
  case_bool_decide; cbv [mret M_ret sys_exit]; cbn [stdin stdout requests];
    rewrite <- ?app_assoc; reflexivity.
Qed.


(** Every run of [main]: what it sends, and how it can end. *)
Lemma main_on_run (issues : list issue) (s : state) :
  let run := main_on argv environ server json_loads issues s in
  match (get_github_token argv environ s).1 with
  | Return token =>
    ∃ n : nat,
      (n ≤ length issues)%nat
      ∧ requests run.2 =
          requests s ++ label_requests server token (requests s)
          ++ take n (draft_request token <$> issues)
      ∧ match run.1 with
        | Raise _ => True
        | _ => label_raises server token (requests s) = None ∧ n = length issues
        end
  | Raise e => run.1 = Raise e ∧ requests run.2 = requests s
  | SystemExit c => run.1 = SystemExit c ∧ requests run.2 = requests s
  end.
Proof.
  cbv zeta. rewrite main_on_steps.
  pose proof (get_github_token_requests (printed (prologue issues) s)) as Hreq.
  pose proof (get_github_token_reads s (printed (prologue issues) s) eq_refl) as Hres.
  destruct (get_github_token argv environ (printed (prologue issues) s))
    as [r s2]. cbn [fst snd requests printed] in Hreq, Hres. rewrite <- Hres.
  destruct r as [token|e|c]; [|done..].
  destruct (check_and_create_label_run token (printed [checking] s2))
    as (Hlreq & _ & Hlres).
  cbn [requests printed] in Hlreq, Hlres. rewrite Hreq in Hlreq, Hlres.
  destruct (check_and_create_label server token (printed [checking] s2))
    as [r4 s4]. cbn [fst snd] in Hlreq, Hlres.
  destruct (label_raises server token (requests s)) as [e|]; subst r4.
  { exists 0%nat. cbn. rewrite app_nil_r. split_and!; [lia|done..]. }
  destruct (create_all_run token (length issues) issues 1 0 0
              (printed [creating issues] s4)) as (n & Hn & Hcreq & _ & Hcres).
  cbn [requests printed] in Hcreq.
  destruct (create_all _ _ _ _ _ _ _ _ _) as [r6 s6]. cbn [fst snd] in Hcreq, Hcres.
  exists n. rewrite Hlreq, <- app_assoc in Hcreq.
  destruct r6 as [counts|e|c]; [|done..].
  destruct Hcres as [-> _]. cbn [fst snd requests printed].
  split_and!; [done..|]. by case_bool_decide.
Qed.

Lemma length_answers (h : list request) (reqs : list request) :
  length (answers server h reqs) = length reqs.
Proof.
  revert h. induction reqs as [|r reqs IH]; intros h; [done|].
  cbn. by rewrite IH.
Qed.

Lemma tally_total (ans : list answer) :
  (length (filter (λ a, created json_loads a = true) ans)
   + length (filter (λ a, created json_loads a = false) ans) = length ans)%nat.
Proof.
  induction ans as [|a ans IH]; [done|].
  destruct (created json_loads a) eqn:Ha.
  - rewrite filter_cons_True, filter_cons_False by congruence. cbn. lia.
  - rewrite filter_cons_False, filter_cons_True by congruence. cbn. lia.
Qed.

(** X1. The run in which a token is resolved, the label step meets no transport
    failure and every error body can be decoded: all drafts are attempted,
    each answer is counted once and the exit status tells whether one failed. *)
Lemma main_on_tally (issues : list issue) (token : str) (s : state) :
  let run := main_on argv environ server json_loads issues s in
  let labels := label_requests server token (requests s) in
  let reqs := draft_request token <$> issues in
  let ans := answers server (requests s ++ labels) reqs in
  let succeeded := length (filter (λ a, created json_loads a = true) ans) in
  let failed := length (filter (λ a, created json_loads a = false) ans) in
  (get_github_token argv environ s).1 = Return token →
  label_raises server token (requests s) = None →
  Forall (λ a, handler_raises a = None) ans →
  requests run.2 = requests s ++ labels ++ reqs
  ∧ (succeeded + failed = length issues)%nat
  ∧ summary succeeded failed `suffix_of` stdout run.2
  ∧ run.1 = (if bool_decide (0 < failed)%nat then SystemExit 1 else Return ())
  ∧ exit_status run.1 = (if bool_decide (0 < failed)%nat then 1 else 0).
Proof.
  cbv zeta. intros Htok Hlabel Hans. rewrite main_on_steps.
  pose proof (get_github_token_requests (printed (prologue issues) s)) as Hreq.
  pose proof (get_github_token_reads s (printed (prologue issues) s) eq_refl) as Hres.
  destruct (get_github_token argv environ (printed (prologue issues) s))
    as [r s2]. cbn [fst snd requests printed] in Hreq, Hres.
  rewrite Htok in Hres. subst r.
  destruct (check_and_create_label_run token (printed [checking] s2))
    as (Hlreq & _ & Hlres).
  cbn [requests printed] in Hlreq, Hlres. rewrite Hreq in Hlreq, Hlres.
  rewrite Hlabel in Hlres.
  destruct (check_and_create_label server token (printed [checking] s2))
    as [r4 s4]. cbn [fst snd] in Hlreq, Hlres. subst r4.
  destruct (create_all_tally token (length issues) issues 1 0 0
              (printed [creating issues] s4)) as (s6 & Hrun & Hcreq & _).
  { cbn [requests printed]. by rewrite Hlreq. }
  cbn [requests printed] in Hrun, Hcreq. rewrite Hlreq in Hrun, Hcreq.
  rewrite Hrun. cbn [fst snd requests printed stdout Nat.add].
  rewrite <- app_assoc in Hcreq.
  split_and!.
  - done.
  - by rewrite tally_total, length_answers, length_fmap.
  - by eexists.
  - done.
  - by case_bool_decide.
Qed.


(** ** The requests and their headers *)

Lemma auth_headers_carry (token : str) :
  auth_headers token !! lit "Authorization" = Some (lit "token " ++ token)
  ∧ auth_headers token !! lit "Accept" = Some (lit "application/vnd.github.v3+json").
Proof.
  unfold auth_headers. split.
  - apply lookup_insert_eq.
  - rewrite lookup_insert_ne by (vm_compute; discriminate).
    apply lookup_singleton_eq.
Qed.

Lemma label_get_carries (token : str) : carries token (label_get_request token).
Proof. apply auth_headers_carry. Qed.

Lemma label_post_carries (token : str) : carries token (label_post_request token).
Proof.
  unfold carries, label_post_request. cbn [headers].
  rewrite !lookup_insert_ne by (vm_compute; discriminate).
  apply auth_headers_carry.
Qed.

Lemma draft_request_carries (token : str) (d : issue) :
  carries token (draft_request token d).
Proof.
  unfold carries, draft_request, issue_request, issue_headers. cbn [headers].
  split.
  - apply lookup_insert_eq.
  - rewrite lookup_insert_ne by (vm_compute; discriminate).
    apply lookup_insert_eq.
Qed.

Lemma label_requests_carry (token : str) (h : list request) :
  Forall (carries token) (label_requests server token h).
Proof.
  pose proof (label_get_carries token) as Hget.
  pose proof (label_post_carries token) as Hpost.
  unfold label_requests.
  destruct (server h (label_get_request token)) as [status reason fp|reason].
  - case_bool_decide; [by apply Forall_singleton|].
    case_bool_decide; [|by apply Forall_singleton].
    apply Forall_cons. split; [done|]. by apply Forall_singleton.
  - by apply Forall_singleton.
Qed.

(** An answer that is no 2xx response is never counted as created. *)
Lemma not_2xx_not_created (a : answer) :
  is_2xx a = false → created json_loads a = false.
Proof.
  unfold created. destruct a as [status reason [raw|why]|reason]; cbn; try done.
  by intros ->.
Qed.

Lemma handler_raises_2xx (a : answer) :
  is_2xx a = true → handler_raises a = None.
Proof.
  destruct a as [status reason fp|reason]; [|discriminate].
  cbn [is_2xx handler_raises]. by intros ->.
Qed.

Lemma issue_number_Some (a : answer) (number : pyval) :
  issue_number json_loads a = Some number ↔
  ∃ status reason raw text entries,
    a = Answer status reason (Stream raw)
    ∧ 200 ≤ status < 300
    ∧ utf8_decode raw = Some text
    ∧ json_loads text = Some (PDict entries)
    ∧ dict_get entries (lit "number") = Some number.
Proof.
  split.
  - destruct a as [status reason [raw|why]|reason]; cbn [issue_number];
      [|discriminate..].
    case_bool_decide as Hst; [|discriminate].
    destruct (utf8_decode raw) as [text|] eqn:Hraw; [|discriminate].
    cbn [mbind option_bind].
    destruct (json_loads text) as [v|] eqn:Hv; [|discriminate].
    destruct v as [| | | | | |entries]; try discriminate.
    intros Hn. by exists status, reason, raw, text, entries.
  - intros (status & reason & raw & text & entries & -> & Hst & Hraw & Hv & Hn).
    cbn [issue_number]. rewrite bool_decide_eq_true_2 by exact Hst.
    rewrite Hraw. cbn [mbind option_bind]. rewrite Hv. exact Hn.
Qed.

Lemma issue_number_2xx (a : answer) (number : pyval) :
  issue_number json_loads a = Some number → is_2xx a = true.
Proof.
  destruct a as [status reason [raw|why]|reason]; cbn [issue_number is_2xx];
    [|discriminate..].
  by case_bool_decide.
Qed.

(** A loop that returns has gone through the whole list. *)
Lemma create_all_returned (issues : list issue) (token : str)
    (total i sc fc : nat) (s : state) :
  let run := create_all server json_loads token total i issues sc fc s in
  is_Some (match run.1 with Return c => Some c | _ => None end) →
  requests run.2 = requests s ++ (draft_request token <$> issues).
Proof.
  intros run Hret. subst run.
  destruct (create_all_run token total issues i sc fc s) as (n & _ & Hreq & _ & Hres).
  destruct (create_all _ _ _ _ _ _ _ _ _).1 as [counts|e|c];
    [|by destruct Hret..].
  destruct Hres as [-> _]. rewrite Hreq.
  by rewrite <- (length_fmap (draft_request token)), firstn_all.
Qed.

(** A run of [main] that resolves a token and ends without an uncaught
    exception has attempted every draft. *)
Lemma main_on_completed (issues : list issue) (token : str) (s : state) :
  let run := main_on argv environ server json_loads issues s in
  (get_github_token argv environ s).1 = Return token →
  (∀ e, run.1 ≠ Raise e) →
  requests run.2 =
    requests s ++ label_requests server token (requests s)
    ++ (draft_request token <$> issues).
Proof.
  intros run Htok Hno. subst run.
  pose proof (main_on_run issues s) as Hrun. cbv zeta in Hrun.
  rewrite Htok in Hrun. destruct Hrun as (n & _ & Hreq & Hres).
  rewrite Hreq.
  destruct (main_on _ _ _ _ _ _).1 as [[]|e|c];
    [| by destruct (Hno e) |].
  - destruct Hres as [_ ->].
    by rewrite <- (length_fmap (draft_request token)), firstn_all.
  - destruct Hres as [_ ->].
    by rewrite <- (length_fmap (draft_request token)), firstn_all.
Qed.

(** ** The claims *)

(** C2. The resolver prefers the command-line argument to the environment
    and the environment to the prompt: with a first argument it returns the
    argument, whatever the environment and standard input hold; with no
    argument it returns a non-empty [GITHUB_TOKEN]; with neither it returns
    what is typed at the prompt (stripped, when that leaves a token). *)
Theorem get_github_token_priority (s : state) :
  (∀ a : str, argv !! 1%nat = Some a →
     get_github_token argv environ s = (Return a, s))
  ∧ (∀ e : str, argv !! 1%nat = None →
       environ !! lit "GITHUB_TOKEN" = Some e → e ≠ [] →
       get_github_token argv environ s = (Return e, s))
  ∧ (∀ (line : str) (rest : list str), argv !! 1%nat = None →
       env_token_missing environ → stdin s = line :: rest → strip line ≠ [] →
       (get_github_token argv environ s).1 = Return (strip line)
       ∧ (strip line = line → (get_github_token argv environ s).1 = Return line)).
Proof.
  split_and!.
  - intros a. apply token_from_argv.
  - intros e. apply token_from_environ.
  - intros line rest Ha He Hin Hne.
    rewrite (token_from_prompt line rest) by done.
    destruct (strip line) eqn:Hs; [done|]. split; [done|]. by intros <-.
Qed.

(** C9. The answer to the prompt is stripped of the whitespace around it
    before it is tested and before it is returned: an answer of whitespace
    only ends the process with status 1, an answer with whitespace around a
    token is returned without it.  Nothing is sent in either case. *)
Theorem prompt_response_is_stripped (s : state) (pre core post : str)
    (rest : list str) :
  argv !! 1%nat = None → env_token_missing environ →
  Forall is_space pre → Forall is_space post → trimmed core →
  stdin s = (pre ++ core ++ post) :: rest →
  let run := get_github_token argv environ s in
  requests run.2 = requests s
  ∧ run.1 = match core with
            | [] => SystemExit 1
            | _ => Return core
            end
  ∧ (core = [] → exit_status run.1 = 1).
Proof.
  intros Ha He Hpre Hpost Hcore Hin run. subst run.
  rewrite (token_from_prompt _ rest) by done.
  rewrite strip_spec by done.
  destruct core; [done|]. by split_and!.
Qed.

(** C4. When the label check is answered with status 404 the ensurer sends
    exactly one request after it, the POST that creates the label with the
    fixed name, description and colour; when the check is answered with
    status 200 it sends nothing after the check. *)
Theorem label_created_only_when_absent (token : str) (s : state)
    (reason : str) (fp : stream) :
  let get := label_get_request token in
  let run := check_and_create_label server token s in
  (server (requests s) get = Answer 404 reason fp →
     requests run.2 = requests s ++ [get; label_post_request token])
  ∧ (server (requests s) get = Answer 200 reason fp →
       requests run.2 = requests s ++ [get] ∧ run.1 = Return ())
  ∧ method get = lit "GET"
  ∧ label_post_request token =
      Request (lit "https://api.github.com/repos/eddiemoore/StructureCreator/labels")
        (Some (Json.dumps
                 (PDict [(lit "name", PStr (lit "feature"));
                         (lit "description", PStr (lit "New feature or enhancement"));
                         (lit "color", PStr (lit "0E8A16"))])))
        (<[ lit "Content-Type" := lit "application/json" ]> (auth_headers token))
        (lit "POST").
Proof.
  cbv zeta.
  destruct (check_and_create_label_run token s) as (Hreq & _ & Hres).
  unfold label_requests, label_raises in *.
  split_and!.
  - intros Hget. rewrite Hget in Hreq. exact Hreq.
  - intros Hget. rewrite Hget in Hreq, Hres. done.
  - done.
  - unfold label_post_request. f_equal.
Qed.

(** One call of [create_issue] sends exactly one request: a POST to the
    issues URL whose body is the JSON object with the title, the body and
    the one label [feature], and nothing else. *)
Theorem create_issue_sends_one_post (token title body : str) (s : state) :
  requests (create_issue server json_loads token title body s).2 =
  requests s ++
  [Request (lit "https://api.github.com/repos/eddiemoore/StructureCreator/issues")
     (Some (Json.dumps
              (PDict [(lit "title", PStr title);
                      (lit "body", PStr body);
                      (lit "labels", PList [PStr (lit "feature")])])))
     (issue_headers token) (lit "POST")].
Proof.
  rewrite create_issue_spec. cbv zeta.
  change (Request _ _ _ _) with (issue_request token title body).
  by repeat case_match.
Qed.





(** C8. Every request a run of [main] sends carries the header
    [Authorization: token <the resolved token>] and the [Accept] header of
    the versioned JSON media type. *)
Theorem requests_carry_credentials (issues : list issue) (s : state) :
  let run := main_on argv environ server json_loads issues s in
  ∃ new : list request,
    requests run.2 = requests s ++ new
    ∧ (new = []
       ∨ ∃ token : str,
           (get_github_token argv environ s).1 = Return token
           ∧ Forall (carries token) new).
Proof.
  cbv zeta. pose proof (main_on_run issues s) as Hrun. cbv zeta in Hrun.
  destruct (get_github_token argv environ s).1 as [token|e|c].
  - destruct Hrun as (n & _ & Hreq & _).
    eexists. split; [exact Hreq|]. right. exists token. split; [done|].
    apply Forall_app. split; [apply label_requests_carry|].
    apply Forall_take, Forall_fmap, Forall_true. intros d.
    apply draft_request_carries.
  - exists []. rewrite app_nil_r. split; [apply Hrun | by left].
  - exists []. rewrite app_nil_r. split; [apply Hrun | by left].
Qed.

(** C10. [create_issue] returns [True] exactly when the request is answered
    with a 2xx response whose body is UTF-8 text that parses as a JSON object
    holding the key [number]; any other 2xx answer is caught by the generic
    handler, reported and counted as a failure by the loop. *)
Theorem created_iff_number (token title body : str) (s : state) :
  let req := issue_request token title body in
  let a := server (requests s) req in
  let run := create_issue server json_loads token title body s in
  (run.1 = Return true ↔
     ∃ status reason raw text entries number,
       a = Answer status reason (Stream raw)
       ∧ 200 ≤ status < 300
       ∧ utf8_decode raw = Some text
       ∧ json_loads text = Some (PDict entries)
       ∧ dict_get entries (lit "number") = Some number)
  ∧ (is_2xx a = true → run.1 ≠ Return true →
       run = (Return false,
              printed [[Txt (lit "✗ Failed to create: " ++ title); Txt nl];
                       failure_detail json_loads a] (sent req s))
       ∧ ∀ (total i sc fc : nat) (s0 : state), requests s0 = requests s →
           (create_all server json_loads token total i [Issue title body] sc fc s0).1
           = Return (sc, S fc)).
Proof.
  cbv zeta.
  set (req := issue_request token title body).
  set (a := server (requests s) req).
  assert (Hrun : (create_issue server json_loads token title body s).1 = Return true
                 ↔ is_Some (issue_number json_loads a)).
  { rewrite create_issue_spec. cbv zeta. fold req a.
    destruct (handler_raises a) as [e|] eqn:Hh.
    - cbn [fst]. split; [discriminate|]. intros [number Hn].
      apply issue_number_2xx in Hn. apply handler_raises_2xx in Hn. congruence.
    - destruct (issue_number json_loads a) as [number|]; cbn [fst].
      + split; [by eexists | reflexivity].
      + split; [discriminate | by intros [? ?]]. }
  split.
  - rewrite Hrun. split.
    + intros [number Hn]. apply issue_number_Some in Hn as (st & r & raw & text & en & Hn).
      by exists st, r, raw, text, en, number.
    + intros (st & r & raw & text & en & number & Hn). exists number.
      apply issue_number_Some. by exists st, r, raw, text, en.
  - intros H2xx Hnot. rewrite Hrun in Hnot.
    assert (Hn : issue_number json_loads a = None).
    { destruct (issue_number json_loads a); [|reflexivity].
      destruct Hnot. by eexists. }
    pose proof (handler_raises_2xx a H2xx) as Hh.
    split.
    + rewrite create_issue_spec. cbv zeta. fold req a. by rewrite Hh, Hn.
    + intros total i sc fc s0 Hs0. rewrite create_all_cons. cbv zeta.
      rewrite create_issue_spec. cbv zeta. cbn [requests printed].
      rewrite Hs0. change (issue_request token _ _) with req. fold a.
      by rewrite Hh, Hn.
Qed.

(** C7 (amended). The static list holds 37 drafts.  Whenever the loop over
    it returns it has sent 37 requests, one per draft and in the order of
    the list; and a run of [main] that resolves a token and does not end in
    an uncaught exception has sent, after the label requests, exactly these
    37. *)
Theorem ISSUES_has_37_drafts :
  length ISSUES = 37%nat
  ∧ (∀ (token : str) (total i sc fc : nat) (s : state),
       let run := create_all server json_loads token total i ISSUES sc fc s in
       is_Some (match run.1 with Return c => Some c | _ => None end) →
       requests run.2 = requests s ++ (draft_request token <$> ISSUES)
       ∧ length (draft_request token <$> ISSUES) = 37%nat)
  ∧ (∀ (token : str) (s : state),
       let run := main argv environ server json_loads s in
       (get_github_token argv environ s).1 = Return token →
       (∀ e, run.1 ≠ Raise e) →
       requests run.2 =
         requests s ++ label_requests server token (requests s)
         ++ (draft_request token <$> ISSUES)).
Proof.
  split_and!.
  - reflexivity.
  - intros token total i sc fc s run Hret. split.
    + by apply create_all_returned.
    + by rewrite length_fmap.
  - intros token s run Htok Hno. by apply main_on_completed.
Qed.

End Properties.

(** ** The claims on concrete runs *)

(** C1. A batch is aborted by one failed request.  The first draft is
    refused with status 422 and counted; the second gets a 502 whose body is
    not UTF-8, and decoding it inside the [except HTTPError] clause raises
    [UnicodeDecodeError], which no clause catches: the run ends there with
    an uncaught exception, 35 of the 37 drafts are never attempted and no
    summary is printed. *)
Theorem main_aborts_on_undecodable_error_body (json_loads : str → option pyval) :
  let run := main (script_argv ++ [ghp]) ∅ latin1_error_server json_loads (initial []) in
  run.1 = Raise UnicodeDecodeError
  ∧ exit_status run.1 = 1
  ∧ requests run.2 =
      label_get_request ghp :: (draft_request ghp <$> take 2 ISSUES)
  ∧ last (stdout run.2) = Some (progress 2 37).
Proof. vm_compute. repeat split; reflexivity. Qed.

(** C3. An empty command-line argument is returned as the token: the
    resolver neither falls through to the environment or the prompt nor
    exits, and [main] goes on to send requests with it. *)
Theorem empty_argument_is_returned (prog : str) (rest : list str)
    (environ : gmap str str) (s : state) :
  get_github_token (prog :: [] :: rest) environ s = (Return [], s)
  ∧ ∀ server json_loads issues, ∃ more,
      requests (main_on (prog :: [] :: rest) environ server json_loads issues s).2
      = requests s ++ label_get_request [] :: more.
Proof.
  assert (Htok : get_github_token (prog :: [] :: rest) environ s = (Return [], s))
    by by apply token_from_argv.
  split; [done|]. intros server json_loads issues.
  pose proof (main_on_run (prog :: [] :: rest) environ server json_loads issues s)
    as Hrun.
  cbv zeta in Hrun. rewrite Htok in Hrun. cbn [fst] in Hrun.
  destruct Hrun as (n & _ & Hreq & _). rewrite Hreq.
  unfold label_requests. repeat case_match; by eexists.
Qed.

(** C5. A transport failure of the label check is not caught: the
    [except] clause names [HTTPError] only.  The run ends with the uncaught
    exception right after the check; no warning is printed and no issue is
    attempted. *)
Theorem label_check_transport_error_escapes (json_loads : str → option pyval) :
  let run := main (script_argv ++ [ghp]) ∅ unreachable_server json_loads (initial []) in
  run.1 = Raise (URLError (lit "Name or service not known"))
  ∧ exit_status run.1 = 1
  ∧ requests run.2 = [label_get_request ghp]
  ∧ last (stdout run.2) = Some checking.
Proof. vm_compute. repeat split; reflexivity. Qed.

(** Three drafts, the second refused with status 422: a success line, a
    failure line with the status, a success line, the summary with 2 and 1,
    and exit status 1. *)
Example second_of_three_refused :
  let run := main_on (script_argv ++ [ghp]) ∅ second_refused_server toy_loads
               three_drafts (initial []) in
  run.1 = SystemExit 1
  ∧ requests run.2 = label_get_request ghp :: (draft_request ghp <$> three_drafts)
  ∧ drop 8 (stdout run.2) =
      [progress 1 3;
       [Txt (lit "✓ Created: first (#"); StrVal (PInt 7); Txt (lit ")"); Txt nl];
       progress 2 3;
       [Txt (lit "✗ Failed to create: second"); Txt nl];
       [Txt (lit "  Error: 422 - {}"); Txt nl];
       progress 3 3;
       [Txt (lit "✓ Created: third (#"); StrVal (PInt 7); Txt (lit ")"); Txt nl]]
      ++ summary 2 1.
Proof. vm_compute. repeat split; reflexivity. Qed.

(** C7, as stated, fails: the list does not hold 38 drafts. *)
Lemma ISSUES_not_38 : length ISSUES ≠ 38%nat.
Proof. discriminate. Qed.

Lemma get_github_token_priority_witness :
  let environ : gmap str str := {[ lit "GITHUB_TOKEN" := lit "ghp_env" ]} in
  let s := initial [lit "  ghp_typed "] in
  get_github_token (script_argv ++ [lit "ghp_arg"]) environ s = (Return (lit "ghp_arg"), s)
  ∧ get_github_token script_argv environ s = (Return (lit "ghp_env"), s)
  ∧ (get_github_token script_argv ∅ s).1 = Return (lit "ghp_typed").
Proof.
  cbv zeta. split_and!.
  - apply (proj1 (get_github_token_priority _ _ _)). reflexivity.
  - apply (proj1 (proj2 (get_github_token_priority _ _ _))).
    + reflexivity.
    + vm_compute. reflexivity.
    + vm_compute. discriminate.
  - apply (proj2 (proj2 (get_github_token_priority script_argv ∅ _))
             (lit "  ghp_typed ") []).
    + reflexivity.
    + left. reflexivity.
    + reflexivity.
    + vm_compute. discriminate.
Defined.

Lemma prompt_response_is_stripped_witness :
  let core := lit "ghp_typed" in
  let s := initial [lit "  " ++ core ++ lit " 	"] in
  let run := get_github_token script_argv ∅ s in
  requests run.2 = requests s
  ∧ run.1 = match core with
            | [] => SystemExit 1
            | _ => Return core
            end
  ∧ (core = [] → exit_status run.1 = 1).
Proof.
  intros core s.
  apply (prompt_response_is_stripped script_argv ∅ s (lit "  ") core (lit " 	") []).
  - reflexivity.
  - left. reflexivity.
  - apply spaces_decide. vm_compute. reflexivity.
  - apply spaces_decide. vm_compute. reflexivity.
  - apply trimmed_decide. vm_compute. reflexivity.
  - reflexivity.
Defined.

Lemma label_created_only_when_absent_witness :
  requests (check_and_create_label fresh_repository_server ghp (initial [])).2
  = [label_get_request ghp; label_post_request ghp]
  ∧ requests (check_and_create_label latin1_error_server ghp (initial [])).2
    = [label_get_request ghp].
Proof.
  split.
  - apply (proj1 (label_created_only_when_absent fresh_repository_server ghp
                    (initial []) (lit "Not Found") (Stream (octets "{}")))).
    vm_compute. reflexivity.
  - apply (proj1 (proj2 (label_created_only_when_absent latin1_error_server ghp
                    (initial []) (lit "OK") (Stream [])))).
    vm_compute. reflexivity.
Defined.

Lemma created_iff_number_witness :
  (create_issue fresh_repository_server toy_loads ghp (lit "t") (lit "b") (initial [])).1
  = Return true
  ∧ (create_issue (always (Answer 200 (lit "OK") (Stream (octets "[]")))) toy_loads
       ghp (lit "t") (lit "b") (initial [])).1 = Return false.
Proof.
  split.
  - apply (proj1 (created_iff_number fresh_repository_server toy_loads ghp
                    (lit "t") (lit "b") (initial []))).
    exists 201, (lit "Created"), number_document, number_document,
      [(lit "number", PInt 7)], (PInt 7).
    vm_compute. repeat split; discriminate.
  - pose proof (proj2 (created_iff_number
                    (always (Answer 200 (lit "OK") (Stream (octets "[]"))))
                    toy_loads ghp (lit "t") (lit "b") (initial []))) as H.
    cbv zeta in H. destruct H as [-> _]; [reflexivity| |reflexivity].
    vm_compute. discriminate.
Defined.

Lemma ISSUES_has_37_drafts_witness :
  let run := main (script_argv ++ [ghp]) ∅ refusing_server toy_loads (initial []) in
  requests run.2 = label_get_request ghp :: (draft_request ghp <$> ISSUES)
  ∧ length (requests run.2) = 38%nat.
Proof.
  cbv zeta.
  pose proof (proj2 (proj2 (ISSUES_has_37_drafts (script_argv ++ [ghp]) ∅
                              refusing_server toy_loads)) ghp (initial [])) as H.
  cbv zeta in H. rewrite H.
  - split; [reflexivity|]. vm_compute. reflexivity.
  - reflexivity.
  - intros e. vm_compute. discriminate.
Defined.

(** * Further properties of the script *)

(** ** Stripping, for every line *)

Lemma lstrip_snoc (s : str) (c : Z) :
  isspace c = false → lstrip (s ++ [c]) = lstrip s ++ [c].
Proof.
  intros Hc. induction s as [|d s IH]; cbn [app lstrip].
  - by rewrite Hc.
  - destruct (isspace d); [exact IH | reflexivity].
Qed.

Lemma lstrip_split (s : str) :
  ∃ pre, s = pre ++ lstrip s ∧ Forall is_space pre
         ∧ match lstrip s with
           | [] => True
           | c :: _ => isspace c = false
           end.
Proof.
  induction s as [|d s (pre & Hs & Hpre & Hhd)].
  - by exists [].
  - cbn [lstrip]. destruct (isspace d) eqn:Hd.
    + exists (d :: pre). split_and!; [by rewrite <- app_comm_cons, <- Hs | by constructor | done].
    + exists []. split_and!; [done | constructor | done].
Qed.

(** [strip] cuts whitespace, and only whitespace, off both ends. *)
Lemma strip_split (s : str) :
  ∃ pre post, s = pre ++ strip s ++ post
              ∧ Forall is_space pre ∧ Forall is_space post ∧ trimmed (strip s).
Proof.
  destruct (lstrip_split s) as (pre & Hs & Hpre & Hhd).
  destruct (lstrip_split (reverse (lstrip s))) as (tsop & Hr & Hpost & Hlast).
  exists pre, (reverse tsop). unfold strip, rstrip.
  set (core := lstrip (reverse (lstrip s))) in *.
  assert (Hl : lstrip s = reverse core ++ reverse tsop).
  { by rewrite <- reverse_app, <- Hr, reverse_involutive. }
  split_and!.
  - by rewrite <- Hl.
  - done.
  - by apply Forall_reverse.
  - destruct core as [|d core'] eqn:Hcore; [by rewrite reverse_nil|].
    rewrite reverse_cons in *.
    destruct (reverse core') as [|c rc] eqn:Hrc; cbn [app] in *.
    + split; [done|]. by exists d.
    + split.
      * rewrite Hl in Hhd. exact Hhd.
      * exists d. split; [|done].
        change (c :: rc ++ [d]) with ((c :: rc) ++ [d]). apply last_snoc.
Qed.

Lemma strip_nil_spaces (s : str) : strip s = [] → Forall is_space s.
Proof.
  intros Hs. destruct (strip_split s) as (pre & post & Heq & Hpre & Hpost & _).
  rewrite Heq, Hs. cbn [app]. by apply Forall_app.
Qed.

Lemma utf8_decode_ascii (s : str) : ascii_str s → utf8_decode s = Some s.
Proof.
  induction 1 as [|c s Hc _ IH]; [done|].
  cbn [utf8_decode]. rewrite bool_decide_eq_true_2 by lia. by rewrite IH.
Qed.

Section Further.

Variable argv : list str.
Variable environ : gmap str str.
Variable server : list request → request → answer.
Variable json_loads : str → option pyval.

(** The result of the loop, for every sequence of answers. *)
Lemma create_all_result (token : str) (total : nat) (issues : list issue) :
  ∀ (i sc fc : nat) (s : state),
  let ans := answers server (requests s) (draft_request token <$> issues) in
  (create_all server json_loads token total i issues sc fc s).1 =
  match first_raise ans with
  | Some e => Raise e
  | None =>
    Return ((sc + length (filter (λ a, created json_loads a = true) ans))%nat,
            (fc + length (filter (λ a, created json_loads a = false) ans))%nat)
  end.
Proof.
  induction issues as [|d rest IH]; intros i sc fc s ans.
  - subst ans. cbn. by rewrite !Nat.add_0_r.
  - rewrite create_all_cons. cbv zeta. rewrite create_issue_spec. cbv zeta.
    subst ans. cbn [fmap list_fmap answers first_raise].
    fold (draft_request token d).
    change (requests (printed [progress i total] s)) with (requests s).
    set (a := server (requests s) (draft_request token d)).
    destruct (handler_raises a) as [e|]; [done|].
    destruct (issue_number json_loads a) as [number|] eqn:Hnum.
    + rewrite IH. cbn [requests printed sent].
      rewrite filter_cons_True by (unfold created; by rewrite Hnum).
      rewrite filter_cons_False by (unfold created; by rewrite Hnum).
      cbn [length]. by rewrite Nat.add_succ_comm.
    + rewrite IH. cbn [requests printed sent].
      rewrite filter_cons_False by (unfold created; by rewrite Hnum).
      rewrite filter_cons_True by (unfold created; by rewrite Hnum).
      cbn [length]. by rewrite Nat.add_succ_comm.
Qed.

(** The resolver ends in one of three ways. *)
Lemma get_github_token_result (s : state) :
  match (get_github_token argv environ s).1 with
  | Return _ => True
  | Raise e => e = EOFError
  | SystemExit c => c = 1
  end.
Proof.
  destruct (argv !! 1%nat) as [a|] eqn:Ha.
  { by rewrite (token_from_argv _ _ a). }
  destruct (environ !! lit "GITHUB_TOKEN") as [[|c e]|] eqn:He.
  - destruct (stdin s) as [|line rest] eqn:Hin.
    + rewrite token_at_eof; [done..|by right|done].
    + rewrite (token_from_prompt _ _ line rest); [|done|by right|done].
      by destruct (strip line).
  - by rewrite (token_from_environ _ _ (c :: e)).
  - destruct (stdin s) as [|line rest] eqn:Hin.
    + rewrite token_at_eof; [done..|by left|done].
    + rewrite (token_from_prompt _ _ line rest); [|done|by left|done].
      by destruct (strip line).
Qed.

(** The result of [main], for every world. *)
Lemma main_on_result (issues : list issue) (s : state) :
  (main_on argv environ server json_loads issues s).1 =
  match (get_github_token argv environ s).1 with
  | Return token =>
    match label_raises server token (requests s) with
    | Some e => Raise e
    | None =>
      let ans := answers server
                   (requests s ++ label_requests server token (requests s))
                   (draft_request token <$> issues) in
      match first_raise ans with
      | Some e => Raise e
      | None =>
        if bool_decide (0 < length (filter (λ a, created json_loads a = false) ans))%nat
        then SystemExit 1 else Return ()
      end
    end
  | Raise e => Raise e
  | SystemExit c => SystemExit c
  end.
Proof.
  rewrite main_on_steps.
  pose proof (get_github_token_requests argv environ (printed (prologue issues) s)) as Hreq.
  pose proof (get_github_token_reads argv environ s (printed (prologue issues) s) eq_refl) as Hres.
  destruct (get_github_token argv environ (printed (prologue issues) s))
    as [r s2]. cbn [fst snd requests printed] in Hreq, Hres. rewrite <- Hres.
  destruct r as [token|e|c]; [|done..].
  destruct (check_and_create_label_run server token (printed [checking] s2))
    as (Hlreq & _ & Hlres).
  cbn [requests printed] in Hlreq, Hlres. rewrite Hreq in Hlreq, Hlres.
  destruct (check_and_create_label server token (printed [checking] s2))
    as [r4 s4]. cbn [fst snd] in Hlreq, Hlres.
  destruct (label_raises server token (requests s)) as [e|]; subst r4; [done|].
  pose proof (create_all_result token (length issues) issues 1 0 0
                (printed [creating issues] s4)) as Hc.
  cbv zeta in Hc. cbn [requests printed] in Hc. rewrite Hlreq in Hc.
  destruct (create_all _ _ _ _ _ _ _ _ _) as [r6 s6]. cbn [fst] in Hc.
  cbv zeta. destruct (first_raise _) as [e|]; subst r6; [done|].
  cbn [fst snd Nat.add]. by case_bool_decide.
Qed.

Lemma all_created_no_raise (ans : list answer) :
  Forall (λ a, created json_loads a = true) ans → first_raise ans = None.
Proof.
  induction 1 as [|a l Ha _ IH]; [done|]. cbn [first_raise].
  unfold created in Ha.
  destruct (issue_number json_loads a) as [n|] eqn:Hn; [|done].
  apply issue_number_2xx, handler_raises_2xx in Hn. by rewrite Hn.
Qed.

Lemma all_created_no_failure (ans : list answer) :
  Forall (λ a, created json_loads a = true) ans →
  filter (λ a, created json_loads a = false) ans = [].
Proof.
  induction 1 as [|a l Ha _ IH]; [done|].
  rewrite filter_cons_False by congruence. exact IH.
Qed.

(** ** What every run of [main] sends and how it ends *)

(** X2. A run of [main] sends nothing at all, or the label requests (the
    GET first) followed by the requests of a prefix of the drafts, in the
    order of the list: no draft is skipped, repeated or sent out of order,
    and none before the label check. *)
Theorem main_sends_labels_then_drafts (issues : list issue) (s : state) :
  let run := main_on argv environ server json_loads issues s in
  requests run.2 = requests s
  ∨ ∃ (token : str) (n : nat) (more : list request),
      (get_github_token argv environ s).1 = Return token
      ∧ (n ≤ length issues)%nat
      ∧ label_requests server token (requests s) = label_get_request token :: more
      ∧ requests run.2 =
          requests s ++ label_requests server token (requests s)
          ++ (draft_request token <$> take n issues).
Proof.
  cbv zeta. pose proof (main_on_run argv environ server json_loads issues s) as Hrun.
  cbv zeta in Hrun.
  destruct (get_github_token argv environ s).1 as [token|e|c];
    [|left; apply Hrun..].
  right. destruct Hrun as (n & Hn & Hreq & _).
  assert (∃ more, label_requests server token (requests s)
                  = label_get_request token :: more) as [more Hmore].
  { unfold label_requests. repeat case_match; by eexists. }
  exists token, n, more. by rewrite fmap_take.
Qed.

(** X3. The loop counts every draft once: when it returns, the two counters
    have grown by the length of the list between them and neither has gone
    down, and one request per draft was sent; when it raises, it stopped
    after the request that failed.  It never calls [sys.exit]. *)
Theorem create_all_counts_every_draft (token : str) (total : nat)
    (issues : list issue) (i sc fc : nat) (s : state) :
  let run := create_all server json_loads token total i issues sc fc s in
  match run.1 with
  | Return counts =>
    (counts.1 + counts.2 = sc + fc + length issues)%nat
    ∧ (sc ≤ counts.1)%nat ∧ (fc ≤ counts.2)%nat
    ∧ requests run.2 = requests s ++ (draft_request token <$> issues)
  | Raise _ =>
    ∃ n : nat, (0 < n ≤ length issues)%nat
      ∧ requests run.2 = requests s ++ (draft_request token <$> take n issues)
  | SystemExit _ => False
  end.
Proof.
  cbv zeta.
  destruct (create_all_run server json_loads token total issues i sc fc s)
    as (n & Hn & Hreq & _ & Hres).
  pose proof (create_all_result token total issues i sc fc s) as Hcounts.
  cbv zeta in Hcounts.
  destruct (create_all _ _ _ _ _ _ _ _ _).1 as [counts|e|c]; [| |done].
  - destruct Hres as [-> Hsum].
    destruct (first_raise _); [done|]. injection Hcounts as ->.
    cbn [fst snd] in *. split_and!; [done|lia|lia|].
    by rewrite Hreq, <- (length_fmap (draft_request token)), firstn_all.
  - exists n. split; [lia|]. by rewrite Hreq, fmap_take.
Qed.

(** X14. The process ends with status 0 or 1, whatever the arguments, the
    environment, standard input and the server do. *)
Theorem main_exit_status_0_or_1 (issues : list issue) (s : state) :
  let run := main_on argv environ server json_loads issues s in
  exit_status run.1 = 0 ∨ exit_status run.1 = 1.
Proof.
  cbv zeta. rewrite main_on_result.
  pose proof (get_github_token_result s) as Hres.
  destruct (get_github_token argv environ s).1 as [token|e|c].
  - destruct (label_raises _ _ _); [by right|]. cbv zeta.
    destruct (first_raise _); [by right|].
    case_bool_decide; [by right | by left].
  - by right.
  - right. by subst c.
Qed.

(** X15. When [main] ends normally (exit status 0), a token was resolved,
    the label step met no transport failure and every draft of the list was
    created: each request was answered with a 2xx response holding a
    [number]. *)
Theorem main_returns_only_if_all_created (issues : list issue) (s : state) :
  let run := main_on argv environ server json_loads issues s in
  run.1 = Return () →
  ∃ token : str,
    (get_github_token argv environ s).1 = Return token
    ∧ label_raises server token (requests s) = None
    ∧ Forall (λ a, created json_loads a = true)
        (answers server (requests s ++ label_requests server token (requests s))
           (draft_request token <$> issues)).
Proof.
  cbv zeta. rewrite main_on_result.
  destruct (get_github_token argv environ s).1 as [token|e|c];
    [|discriminate..].
  cbv zeta.
  set (ans := answers server _ (draft_request token <$> issues)).
  intros Hret. exists token. split; [done|].
  destruct (label_raises _ _ _); [discriminate|]. split; [done|].
  destruct (first_raise ans); [discriminate|].
  case_bool_decide as Hf; [discriminate|].
  apply Forall_forall. intros a Ha.
  destruct (created json_loads a) eqn:Hc; [done|].
  assert (a ∈ filter (λ a, created json_loads a = false) ans) as Hin
    by by apply list_elem_of_filter.
  destruct (filter _ ans); [by apply elem_of_nil in Hin | cbn in Hf; lia].
Qed.

(** X16. Nothing guards against a second run: when the token comes from
    the command line and two runs in a row both get through, the second
    sends the label check and every draft once more, after the requests of
    the first. *)
Theorem rerun_posts_every_draft_again (issues : list issue) (token : str)
    (s : state) :
  argv !! 1%nat = Some token →
  let run1 := main_on argv environ server json_loads issues s in
  let run2 := main_on argv environ server json_loads issues run1.2 in
  let drafts := draft_request token <$> issues in
  (∀ e, run1.1 ≠ Raise e) → (∀ e, run2.1 ≠ Raise e) →
  requests run2.2 =
    requests s
    ++ label_requests server token (requests s) ++ drafts
    ++ label_requests server token (requests run1.2) ++ drafts.
Proof.
  intros Ha run1 run2 drafts H1 H2. subst run2 drafts.
  rewrite (main_on_completed argv environ server json_loads issues token run1.2);
    [|by rewrite (token_from_argv _ _ token)|exact H2].
  subst run1.
  rewrite (main_on_completed argv environ server json_loads issues token s) at 1;
    [|by rewrite (token_from_argv _ _ token)|exact H1].
  by rewrite <- !app_assoc.
Qed.

(** ** The resolver *)

(** X4. The resolver sends no request, whatever it returns or raises; it
    only adds to standard output and reads at most one line. *)
Theorem get_github_token_sends_nothing (s : state) :
  let run := get_github_token argv environ s in
  requests run.2 = requests s
  ∧ stdout s `prefix_of` stdout run.2
  ∧ (stdin run.2 = stdin s ∨ ∃ line, stdin s = line :: stdin run.2).
Proof.
  cbv zeta.
  assert (Hsame : ∀ r, get_github_token argv environ s = (r, s) →
    requests (get_github_token argv environ s).2 = requests s
    ∧ stdout s `prefix_of` stdout (get_github_token argv environ s).2
    ∧ (stdin (get_github_token argv environ s).2 = stdin s
       ∨ ∃ line, stdin s = line :: stdin (get_github_token argv environ s).2)).
  { intros r ->. split_and!; [done|done|by left]. }
  assert (Hprompt : env_token_missing environ → argv !! 1%nat = None →
    requests (get_github_token argv environ s).2 = requests s
    ∧ stdout s `prefix_of` stdout (get_github_token argv environ s).2
    ∧ (stdin (get_github_token argv environ s).2 = stdin s
       ∨ ∃ line, stdin s = line :: stdin (get_github_token argv environ s).2)).
  { intros He Ha. destruct (stdin s) as [|line rest] eqn:Hin.
    - rewrite token_at_eof by done. cbn [snd requests stdout stdin].
      split_and!; [done|by eexists|by left].
    - rewrite (token_from_prompt _ _ line rest) by done.
      destruct (strip line); cbn [snd requests stdout stdin];
        (split_and!; [done|by eexists|right; by exists line]). }
  destruct (argv !! 1%nat) as [a|] eqn:Ha.
  { apply (Hsame (Return a)). by apply token_from_argv. }
  destruct (environ !! lit "GITHUB_TOKEN") as [[|c e]|] eqn:He.
  - apply Hprompt; [by right|done].
  - apply (Hsame (Return (c :: e))). by apply token_from_environ.
  - apply Hprompt; [by left|done].
Qed.

(** X5. With no argument, no token in the environment and standard input at
    its end, [input] raises [EOFError], which nothing catches: the resolver
    has printed the prompt, and [main] ends with the uncaught exception
    (status 1) without sending a request. *)
Theorem prompt_at_end_of_input (issues : list issue) (s : state) :
  argv !! 1%nat = None → env_token_missing environ → stdin s = [] →
  get_github_token argv environ s = (Raise EOFError, printed prompt_lines s)
  ∧ let run := main_on argv environ server json_loads issues s in
    run.1 = Raise EOFError ∧ exit_status run.1 = 1
    ∧ requests run.2 = requests s.
Proof.
  intros Ha He Hin.
  assert (Htok : get_github_token argv environ s = (Raise EOFError, printed prompt_lines s)).
  { rewrite token_at_eof by done. unfold printed. by rewrite Hin. }
  split; [done|]. cbv zeta.
  pose proof (main_on_run argv environ server json_loads issues s) as Hrun.
  cbv zeta in Hrun. rewrite Htok in Hrun. cbn [fst] in Hrun.
  destruct Hrun as [-> ->]. done.
Qed.

(** X6. A [GITHUB_TOKEN] that is set to the empty string counts as unset:
    the resolver does exactly what it does without the variable. *)
Theorem empty_environment_token_is_unset (s : state) :
  environ !! lit "GITHUB_TOKEN" = Some [] →
  get_github_token argv environ s
  = get_github_token argv (delete (lit "GITHUB_TOKEN") environ) s.
Proof.
  intros He. unfold get_github_token. by rewrite He, lookup_delete_eq.
Qed.

(** X7. Whatever is typed at the prompt, a token that comes back is the
    line without the whitespace at its two ends: it is not empty, neither
    starts nor ends with whitespace, and only whitespace was cut off.  The
    process exits (status 1) exactly for a line of whitespace only. *)
Theorem prompt_token_is_trimmed (s : state) (line : str) (rest : list str) :
  argv !! 1%nat = None → env_token_missing environ → stdin s = line :: rest →
  match (get_github_token argv environ s).1 with
  | Return token =>
    token ≠ [] ∧ trimmed token
    ∧ ∃ pre post, line = pre ++ token ++ post
                  ∧ Forall is_space pre ∧ Forall is_space post
  | SystemExit c => c = 1 ∧ Forall is_space line
  | Raise _ => False
  end.
Proof.
  intros Ha He Hin. rewrite (token_from_prompt _ _ line rest) by done.
  destruct (strip_split line) as (pre & post & Heq & Hpre & Hpost & Htrim).
  destruct (strip line) as [|c t] eqn:Hs; cbn [fst].
  - split; [done|]. by apply strip_nil_spaces.
  - split_and!; [done|done|]. by exists pre, post.
Qed.

(** X13. With no argument, no token in the environment and a line of
    whitespace only at the prompt, [main] prints the error, exits with
    status 1 and has sent nothing. *)
Theorem main_without_token_sends_nothing (issues : list issue) (s : state)
    (line : str) (rest : list str) :
  argv !! 1%nat = None → env_token_missing environ →
  stdin s = line :: rest → Forall is_space line →
  let run := main_on argv environ server json_loads issues s in
  run.1 = SystemExit 1 ∧ exit_status run.1 = 1
  ∧ requests run.2 = requests s
  ∧ last (stdout run.2) = Some [Txt (lit "Error: No token provided"); Txt nl].
Proof.
  intros Ha He Hin Hline. cbv zeta. rewrite main_on_steps.
  rewrite (token_from_prompt _ _ line rest) by done.
  rewrite strip_all_spaces by done. cbn [fst snd requests stdout printed].
  split_and!; [done..|].
  rewrite !app_assoc. apply last_snoc.
Qed.

(** ** The label step *)

(** X8. An HTTP answer, whatever its status, never stops the label step:
    when no request of the step ends without an HTTP response (the check, and
    the create request when the check ended in a 404),
    [check_and_create_label] returns, having printed exactly one line, the
    confirmation or a warning. *)
Theorem check_and_create_label_survives_http_errors (token : str) (s : state) :
  label_raises server token (requests s) = None →
  let run := check_and_create_label server token s in
  run.1 = Return ()
  ∧ length (stdout run.2) = S (length (stdout s)).
Proof.
  unfold label_raises. intros Hlabel. cbv zeta.
  rewrite check_and_create_label_spec. cbv zeta.
  destruct (server (requests s) (label_get_request token)) as [st r fp|r];
    [|discriminate].
  case_bool_decide.
  { cbn [fst snd printed sent stdout]. rewrite !length_app.
    cbn [length]. split; [done|lia]. }
  case_bool_decide.
  2:{ cbn [fst snd printed sent stdout]. rewrite !length_app.
      cbn [length]. split; [done|lia]. }
  destruct (server _ (label_post_request token)) as [st2 r2 fp2|r2];
    [|discriminate].
  case_bool_decide; cbn [fst snd printed sent stdout];
    rewrite !length_app; cbn [length]; (split; [done|lia]).
Qed.

(** X9. [check_and_create_label] passes a second request to [urlopen],
    the one that creates the label, exactly when the check ends in an HTTP
    404; however else the call for the check ends (a 2xx response, another
    status, no response) the check is the only request the function
    makes. *)
Theorem label_post_only_after_404 (token : str) (s : state) :
  let get := label_get_request token in
  requests (check_and_create_label server token s).2 =
  requests s ++ (if is_404 (server (requests s) get)
                 then [get; label_post_request token]
                 else [get]).
Proof.
  cbv zeta.
  destruct (check_and_create_label_run server token s)
    as (Hreq & _). rewrite Hreq. unfold label_requests, is_404.
  destruct (server (requests s) (label_get_request token)) as [st r fp|r]; [|done].
  case_bool_decide as H2; case_bool_decide as H4; try done. lia.
Qed.

(** ** One issue *)

(** X10. An error response whose body cannot be read, or is not UTF-8,
    makes the exception of [e.read().decode('utf-8')] leave [create_issue]:
    raised inside the [except HTTPError] clause it is caught by no clause,
    after the one request and before anything is printed. *)
Theorem create_issue_handler_exception_escapes (token title body : str)
    (s : state) (status : Z) (reason : str) (fp : stream) :
  let req := issue_request token title body in
  server (requests s) req = Answer status reason fp →
  ¬ (200 ≤ status < 300) →
  match fp with
  | Broken why =>
    create_issue server json_loads token title body s
    = (Raise (URLError why), sent req s)
  | Stream raw =>
    utf8_decode raw = None →
    create_issue server json_loads token title body s
    = (Raise UnicodeDecodeError, sent req s)
  end.
Proof.
  intros req Ha Hst. subst req.
  destruct fp as [raw|why].
  - intros Hraw. rewrite create_issue_spec. cbv zeta. rewrite Ha.
    cbn [handler_raises]. rewrite bool_decide_eq_false_2 by done.
    by rewrite Hraw.
  - rewrite create_issue_spec. cbv zeta. rewrite Ha.
    cbn [handler_raises]. by rewrite bool_decide_eq_false_2 by done.
Qed.

(** X11. Building the request cannot fail: for every title and body, also
    with characters outside ASCII or lone surrogates, [json.dumps] escapes
    them, so the body is ASCII, [encode] does not raise and the octets
    decode back to the JSON text. *)
Theorem issue_request_body_is_ascii (token title body : str) (s : state) :
  let text := Json.dumps (issue_payload title body) in
  data (issue_request token title body) = Some text
  ∧ ascii_str text
  ∧ encode text s = (Return text, s)
  ∧ utf8_decode text = Some text.
Proof.
  cbv zeta. pose proof (issue_payload_ascii title body) as Hascii.
  split_and!; [done|done|apply encode_issue_payload|by apply utf8_decode_ascii].
Qed.

(** X12. A refused request is reported with its status and the text of the
    error body, a request without an answer with the exception; both make
    [create_issue] return [False] after two printed lines. *)
Theorem create_issue_reports_failure (token title body : str) (s : state) :
  let req := issue_request token title body in
  (∀ status reason raw text,
     server (requests s) req = Answer status reason (Stream raw) →
     ¬ (200 ≤ status < 300) → utf8_decode raw = Some text →
     create_issue server json_loads token title body s =
     (Return false,
      printed [[Txt (lit "✗ Failed to create: " ++ title); Txt nl];
               [Txt (lit "  Error: " ++ str_of_int status ++ lit " - " ++ text);
                Txt nl]] (sent req s)))
  ∧ (∀ reason,
       server (requests s) req = NoAnswer reason →
       create_issue server json_loads token title body s =
       (Return false,
        printed [[Txt (lit "✗ Failed to create: " ++ title); Txt nl];
                 [Txt (lit "  Error: "); StrExn (URLError reason); Txt nl]]
          (sent req s))).
Proof.
  cbv zeta. split.
  - intros status reason raw text Ha Hst Hraw.
    rewrite create_issue_spec. cbv zeta. rewrite Ha.
    cbn [handler_raises issue_number failure_detail].
    rewrite bool_decide_eq_false_2 by done. by rewrite Hraw.
  - intros reason Ha. rewrite create_issue_spec. cbv zeta. by rewrite Ha.
Qed.

End Further.

(** ** The further properties on concrete runs *)

Lemma forallb_Forall {A} (f : A → bool) (l : list A) :
  forallb f l = true → Forall (λ a, f a = true) l.
Proof.
  induction l as [|a l IH]; [constructor|].
  cbn [forallb]. intros [Ha Hl]%andb_prop. by constructor; [|apply IH].
Qed.

Lemma decodable_Forall (l : list answer) :
  forallb decodable l = true → Forall (λ a, handler_raises a = None) l.
Proof.
  intros Hl. apply forallb_Forall in Hl.
  eapply Forall_impl; [exact Hl|]. intros a. unfold decodable.
  by destruct (handler_raises a).
Qed.

Lemma main_on_tally_witness :
  let run := main_on (script_argv ++ [ghp]) ∅ second_refused_server toy_loads
               three_drafts (initial []) in
  requests run.2 = label_get_request ghp :: (draft_request ghp <$> three_drafts)
  ∧ run.1 = SystemExit 1.
Proof.
  cbv zeta.
  assert (H1 : (get_github_token (script_argv ++ [ghp]) ∅ (initial [])).1 = Return ghp)
    by (vm_compute; reflexivity).
  assert (H2 : label_raises second_refused_server ghp (requests (initial [])) = None)
    by (vm_compute; reflexivity).
  assert (H3 : Forall (λ a, handler_raises a = None)
                 (answers second_refused_server
                    (requests (initial [])
                     ++ label_requests second_refused_server ghp (requests (initial [])))
                    (draft_request ghp <$> three_drafts)))
    by (apply decodable_Forall; vm_compute; reflexivity).
  pose proof (main_on_tally (script_argv ++ [ghp]) ∅ second_refused_server toy_loads
                three_drafts ghp (initial []) H1 H2 H3) as H.
  cbv zeta in H. destruct H as (Hreq & _ & _ & Hres & _).
  split.
  - rewrite Hreq. vm_compute. reflexivity.
  - rewrite Hres. vm_compute. reflexivity.
Defined.

Lemma prompt_at_end_of_input_witness :
  (main_on script_argv ∅ unreachable_server toy_loads three_drafts (initial [])).1
  = Raise EOFError.
Proof.
  pose proof (prompt_at_end_of_input script_argv ∅ unreachable_server toy_loads
                three_drafts (initial []) eq_refl (or_introl (lookup_empty _))
                eq_refl) as [_ H].
  cbv zeta in H. apply H.
Defined.

Lemma empty_environment_token_is_unset_witness :
  get_github_token script_argv {[ lit "GITHUB_TOKEN" := [] ]} (initial [lit "typed"])
  = get_github_token script_argv
      (delete (lit "GITHUB_TOKEN") {[ lit "GITHUB_TOKEN" := [] ]})
      (initial [lit "typed"]).
Proof.
  apply empty_environment_token_is_unset. apply lookup_singleton_eq.
Defined.

Lemma prompt_token_is_trimmed_witness :
  match (get_github_token script_argv ∅ (initial [lit " ghp_typed "])).1 with
  | Return token =>
    token ≠ [] ∧ trimmed token
    ∧ ∃ pre post, lit " ghp_typed " = pre ++ token ++ post
                  ∧ Forall is_space pre ∧ Forall is_space post
  | SystemExit c => c = 1 ∧ Forall is_space (lit " ghp_typed ")
  | Raise _ => False
  end.
Proof.
  apply (prompt_token_is_trimmed script_argv ∅ (initial [lit " ghp_typed "])
           (lit " ghp_typed ") [] eq_refl (or_introl (lookup_empty _)) eq_refl).
Defined.

Lemma check_and_create_label_survives_http_errors_witness :
  (check_and_create_label refusing_server ghp (initial [])).1 = Return ()
  ∧ length (stdout (check_and_create_label refusing_server ghp (initial [])).2)
    = S (length (stdout (initial []))).
Proof.
  pose proof (check_and_create_label_survives_http_errors refusing_server ghp
                (initial [])) as H.
  cbv zeta in H. apply H. vm_compute. reflexivity.
Defined.

Lemma create_issue_reports_failure_witness :
  (create_issue refusing_server toy_loads ghp (lit "t") (lit "b") (initial [])).1
  = Return false.
Proof.
  pose proof (create_issue_reports_failure refusing_server toy_loads ghp
                (lit "t") (lit "b") (initial [])) as H.
  cbv zeta in H. destruct H as [H _].
  rewrite (H 401 (lit "Unauthorized") (octets "{}") (lit "{}")).
  - reflexivity.
  - reflexivity.
  - intros [_ Hlt]. vm_compute in Hlt. discriminate.
  - vm_compute. reflexivity.
Defined.

Lemma main_without_token_sends_nothing_witness :
  let run := main_on script_argv ∅ unreachable_server toy_loads three_drafts
               (initial [lit "   "]) in
  run.1 = SystemExit 1 ∧ requests run.2 = [].
Proof.
  pose proof (main_without_token_sends_nothing script_argv ∅ unreachable_server
                toy_loads three_drafts (initial [lit "   "]) (lit "   ") []
                eq_refl (or_introl (lookup_empty _)) eq_refl) as H.
  cbv zeta in H. destruct H as (Hres & _ & Hreq & _).
  - apply spaces_decide. vm_compute. reflexivity.
  - cbv zeta. split; [exact Hres | exact Hreq].
Defined.

Lemma main_returns_only_if_all_created_witness :
  ∃ token : str,
    (get_github_token (script_argv ++ [ghp]) ∅ (initial [])).1 = Return token
    ∧ label_raises fresh_repository_server token (requests (initial [])) = None
    ∧ Forall (λ a, created toy_loads a = true)
        (answers fresh_repository_server
           (requests (initial [])
            ++ label_requests fresh_repository_server token (requests (initial [])))
           (draft_request token <$> three_drafts)).
Proof.
  apply (main_returns_only_if_all_created (script_argv ++ [ghp]) ∅
           fresh_repository_server toy_loads three_drafts (initial [])).
  vm_compute. reflexivity.
Defined.

Lemma create_issue_handler_exception_escapes_witness :
  create_issue latin1_error_server toy_loads ghp (lit "t") (lit "b")
    (sent (label_get_request ghp) (sent (label_get_request ghp) (initial [])))
  = (Raise UnicodeDecodeError,
     sent (issue_request ghp (lit "t") (lit "b"))
       (sent (label_get_request ghp) (sent (label_get_request ghp) (initial [])))).
Proof.
  apply (create_issue_handler_exception_escapes latin1_error_server toy_loads ghp
           (lit "t") (lit "b")
           (sent (label_get_request ghp) (sent (label_get_request ghp) (initial [])))
           502 (lit "Bad Gateway") (Stream [69; 114; 114; 101; 117; 114; 32; 233])).
  - vm_compute. reflexivity.
  - lia.
  - vm_compute. reflexivity.
Defined.



Lemma rerun_posts_every_draft_again_witness :
  let run1 := main_on (script_argv ++ [ghp]) ∅ refusing_server toy_loads
                three_drafts (initial []) in
  let run2 := main_on (script_argv ++ [ghp]) ∅ refusing_server toy_loads
                three_drafts run1.2 in
  requests run2.2 =
    (label_get_request ghp :: (draft_request ghp <$> three_drafts))
    ++ (label_get_request ghp :: (draft_request ghp <$> three_drafts)).
Proof.
  cbv zeta.
  rewrite (rerun_posts_every_draft_again (script_argv ++ [ghp]) ∅ refusing_server
             toy_loads three_drafts ghp (initial []) eq_refl).
  - vm_compute. reflexivity.
  - intros e. vm_compute. discriminate.
  - intros e. vm_compute. discriminate.
Defined.
